(** * MindCare: the conversation pipeline of [MindCare.py]

    A shallow embedding of the Python module: the classification parser,
    the risk gate, the JSON log store under [logs/], the per-turn pipeline
    and the farewell path, followed by the properties of the specification
    that were checked against it. *)

From Stdlib Require Import Strings.String Strings.Ascii Strings.Byte.
From stdpp Require Import gmap list sorting.

Local Open Scope Z_scope.

(** ** Text

    A Python [str] is a sequence of Unicode code points. *)

Abbreviation text := (list N).

(** Literals of the source are written as they stand in the file (UTF-8)
    and decoded to code points. *)
Fixpoint utf8_decode (bs : list N) : text :=
  match bs with
  | [] => []
  | b0 :: bs1 =>
    if (b0 <? 128)%N then b0 :: utf8_decode bs1
    else match bs1 with
    | [] => [b0]
    | b1 :: bs2 =>
      if (b0 <? 224)%N then
        ((b0 - 192) * 64 + (b1 - 128))%N :: utf8_decode bs2
      else match bs2 with
      | [] => [b0; b1]
      | b2 :: bs3 =>
        if (b0 <? 240)%N then
          ((b0 - 224) * 4096 + (b1 - 128) * 64 + (b2 - 128))%N
            :: utf8_decode bs3
        else match bs3 with
        | [] => [b0; b1; b2]
        | b3 :: bs4 =>
          ((b0 - 240) * 262144 + (b1 - 128) * 4096
             + (b2 - 128) * 64 + (b3 - 128))%N :: utf8_decode bs4
        end
      end
    end
  end.

Definition lit (s : string) : text :=
  utf8_decode (map Byte.to_N (list_byte_of_string s)).
Global Arguments lit : simpl never.


(** [a <= b] on [str]: lexicographic on code points, a proper prefix first. *)
Fixpoint text_leb (a b : text) : bool :=
  match a, b with
  | [], _ => true
  | _ :: _, [] => false
  | x :: a', y :: b' =>
    if (x <? y)%N then true
    else if (x =? y)%N then text_leb a' b' else false
  end.

Definition text_le (a b : text) : Prop := text_leb a b = true.
Definition text_ge (a b : text) : Prop := text_le b a.
Definition text_lt (a b : text) : Prop := text_leb b a = false.

Global Instance text_le_dec a b : Decision (text_le a b).
Proof. unfold text_le. apply _. Defined.

Global Instance text_ge_dec a b : Decision (text_ge a b).
Proof. unfold text_ge. apply _. Defined.

Global Instance text_lt_dec a b : Decision (text_lt a b).
Proof. unfold text_lt. apply _. Defined.

(** [s.startswith(p)], [s.endswith(p)] and [needle in hay]. *)
Definition startswith (s p : text) : bool := bool_decide (p `prefix_of` s).
Definition endswith (s p : text) : bool := bool_decide (p `suffix_of` s).

Fixpoint contains (needle hay : text) : bool :=
  startswith hay needle ||
  match hay with
  | [] => false
  | _ :: hay' => contains needle hay'
  end.

(** [s.replace(old, new)] for a non-empty [old]: every occurrence, left to
    right, without overlap. [skip] counts the code points of an occurrence
    that has just been replaced and is still to be passed over. *)
Fixpoint replace_from (old new : text) (skip : nat) (s : text) : text :=
  match s with
  | [] => []
  | c :: s' =>
    match skip with
    | S k => replace_from old new k s'
    | O =>
      if startswith s old
      then new ++ replace_from old new (Nat.pred (length old)) s'
      else c :: replace_from old new O s'
    end
  end.

Definition replace (s old new : text) : text := replace_from old new O s.

Fixpoint takewhile (p : N -> bool) (s : text) : text :=
  match s with
  | c :: s' => if p c then c :: takewhile p s' else []
  | [] => []
  end.

Fixpoint dropwhile (p : N -> bool) (s : text) : text :=
  match s with
  | c :: s' => if p c then dropwhile p s' else s
  | [] => []
  end.

(** [sep.join(parts)] *)
Fixpoint join (sep : text) (parts : list text) : text :=
  match parts with
  | [] => []
  | [p] => p
  | p :: ps => p ++ sep ++ join sep ps
  end.

(** ** What the Python runtime supplies

    The Unicode tables behind [\d], [int()], [str.strip()] and
    [str.lower()], and SHA-256, are not part of the module; every
    definition and theorem below is stated for any choice of them. *)
Class Runtime := {
  (** the decimal value of a code point of category Nd, as [\d] matches
      it and [int()] reads it *)
  decimal : N -> option N;
  (** [str.isspace] on one code point *)
  isspace : N -> bool;
  (** [str.lower] *)
  lower : text -> text;
  (** [hashlib.sha256(name.encode()).hexdigest()] *)
  sha256_hexdigest : text -> text;
}.

(** The ASCII part of those tables, for running the definitions on the
    inputs of the examples. The digest is a stand-in that keeps distinct
    names distinct. *)
Definition ascii_decimal (c : N) : option N :=
  if ((48 <=? c) && (c <=? 57))%N then Some (c - 48)%N else None.

Definition ascii_isspace (c : N) : bool :=
  (((9 <=? c) && (c <=? 13)) || ((28 <=? c) && (c <=? 32)))%N.

Definition ascii_lower_char (c : N) : N :=
  if ((65 <=? c) && (c <=? 90))%N then (c + 32)%N else c.

Definition ascii_runtime : Runtime := {|
  decimal := ascii_decimal;
  isspace := ascii_isspace;
  lower := map ascii_lower_char;
  sha256_hexdigest := fun name => lit "sha256:" ++ name;
|}.

(** ** The world around the module

    The module talks to four things: the environment variable holding the
    API key, the chat-completion service, the wall clock and the directory
    [logs/]. *)

(** A stored file of [logs/]: a JSON object as [json.load] returns it, or
    a file that is not valid JSON. The model covers objects whose fields
    hold strings, as [log_interaction] writes them: [None] stands for a
    missing key, and for [username_hash] also for [null]. *)
Record log_data := LogData {
  j_timestamp : option text;
  j_sentiment_score : option text;
  j_response : option text;
  j_user_input : option text;
  j_username_hash : option text;
}.

Inductive file :=
  | JsonObject (data : log_data)
  | Malformed.   (* [json.load] raises [JSONDecodeError] *)

(** The value [load_previous_logs] keeps per record:
    [{"input": ..., "response": ...}]. *)
Record log_entry := LogEntry {
  e_input : text;
  e_response : text;
}.

Global Instance log_entry_eq_dec : EqDecision log_entry.
Proof. solve_decision. Defined.

Record datetime := DateTime {
  year : N; month : N; day : N;
  hour : N; minute : N; second : N;
}.

(** Which function of the module sent a chat-completion request. *)
Inductive site :=
  | AtPreprocess   (* preprocess_input_with_openai *)
  | AtSentiment    (* get_sentiment_score *)
  | AtWarning      (* is_warning_signal *)
  | AtResponse     (* generate_response *)
  | AtFarewell.    (* generate_farewell_message *)

Global Instance site_eq_dec : EqDecision site.
Proof. solve_decision. Defined.

Record world := World {
  (** [os.getenv("OPENAI_API_KEY")] after [load_dotenv()] *)
  env_api_key : option text;
  (** the service: the content of the first choice for the n-th request
      of the run and its prompt, [None] when the request raises *)
  oracle : nat -> text -> option text;
  (** the requests sent so far, oldest first *)
  requests : list (site * text);
  (** the wall clock: what the n-th call of [datetime.now()] returns *)
  clock : nat -> datetime;
  clock_reads : nat;
  (** the directory [logs/], file name to content; [None] when it does
      not exist *)
  logs_dir : option (gmap text file);
  (** what the program has written to standard output, piece by piece,
      oldest first *)
  stdout : list text;
}.

Inductive exn :=
  | OpenAIError
  | FileNotFoundError
  | JSONDecodeError
  | KeyError (key : Z)
  | EOFError.

Inductive result (A : Type) :=
  | Ok (a : A)
  | Raise (e : exn).
Arguments Ok {A} a.
Arguments Raise {A} e.

(** A computation of the module: it changes the world and returns or
    raises. *)
Definition M (A : Type) : Type := world -> result A * world.

Global Instance M_ret : MRet M := fun A a w => (Ok a, w).

Global Instance M_bind : MBind M := fun A B f m w =>
  match m w with
  | (Ok a, w') => f a w'
  | (Raise e, w') => (Raise e, w')
  end.

Definition raise {A} (e : exn) : M A := fun w => (Raise e, w).

Definition get_world : M world := fun w => (Ok w, w).
Definition put_world (w : world) : M unit := fun _ => (Ok tt, w).

(** The four ways the module changes the world. *)
Definition add_requests (new : list (site * text)) (w : world) : world :=
  World (env_api_key w) (oracle w) (requests w ++ new)
        (clock w) (clock_reads w) (logs_dir w) (stdout w).

Definition tick_clock (w : world) : world :=
  World (env_api_key w) (oracle w) (requests w)
        (clock w) (S (clock_reads w)) (logs_dir w) (stdout w).

Definition set_logs_dir (dir : gmap text file) (w : world) : world :=
  World (env_api_key w) (oracle w) (requests w)
        (clock w) (clock_reads w) (Some dir) (stdout w).

Definition add_stdout (piece : text) (w : world) : world :=
  World (env_api_key w) (oracle w) (requests w)
        (clock w) (clock_reads w) (logs_dir w) (stdout w ++ [piece]).

(** [client.chat.completions.create(model=..., messages=[{"role": "user",
    "content": prompt}])] followed by [.choices[0].message.content]. *)
Definition chat_completion (at_ : site) (prompt : text) : M text :=
  w ← get_world;
  put_world (add_requests [(at_, prompt)] w);;
  match oracle w (length (requests w)) prompt with
  | Some content => mret content
  | None => raise OpenAIError
  end.

(** [datetime.now()] *)
Definition datetime_now : M datetime :=
  w ← get_world;
  put_world (tick_clock w);;
  mret (clock w (clock_reads w)).

(** [os.makedirs("logs", exist_ok=True)] *)
Definition makedirs_logs : M unit :=
  w ← get_world;
  put_world (set_logs_dir (default ∅ (logs_dir w)) w).

(** [os.listdir("logs")]: the names, in no particular order. *)
Definition listdir_logs : M (list text) :=
  w ← get_world;
  match logs_dir w with
  | Some dir => mret (map_to_list dir).*1
  | None => raise FileNotFoundError
  end.

(** [with open("logs/" + filename) as f: json.load(f)] *)
Definition json_load (filename : text) : M log_data :=
  w ← get_world;
  match logs_dir w with
  | Some dir =>
    match dir !! filename with
    | Some (JsonObject data) => mret data
    | Some Malformed => raise JSONDecodeError
    | None => raise FileNotFoundError
    end
  | None => raise FileNotFoundError
  end.

(** [with open("logs/" + filename, "w") as f: json.dump(data, f, ...)] *)
Definition json_dump (filename : text) (data : log_data) : M unit :=
  w ← get_world;
  match logs_dir w with
  | Some dir => put_world (set_logs_dir (<[filename := JsonObject data]> dir) w)
  | None => raise FileNotFoundError
  end.

(** [print(line)] *)
Definition print (line : text) : M unit :=
  w ← get_world;
  put_world (add_stdout (line ++ [10%N]) w).

(** What [input(prompt)] writes before it reads a line. *)
Definition write_prompt (prompt : text) : M unit :=
  w ← get_world;
  put_world (add_stdout prompt w).

(** ** The module *)

Definition emotion_mapping : gmap Z text :=
  list_to_map [
    (1, lit "공포");
    (2, lit "놀람");
    (3, lit "중립");
    (4, lit "혐오");
    (5, lit "분노");
    (6, lit "슬픔");
    (7, lit "행복")
  ].
Global Arguments emotion_mapping : simpl never.

(** [bool(username)] for [username: Optional[str]] *)
Definition truthy (username : option text) : bool :=
  match username with
  | Some (_ :: _) => true
  | _ => false
  end.

Section MindCare.
Context `{Runtime}.

Definition is_digit (c : N) : bool := bool_decide (is_Some (decimal c)).

(** [s.strip()] *)
Definition lstrip (s : text) : text := dropwhile isspace s.
Definition strip (s : text) : text := reverse (lstrip (reverse (lstrip s))).

(** [re.search(r"\d+", text)]: the leftmost longest run of digits. *)
Fixpoint re_search_digits (s : text) : option text :=
  match s with
  | [] => None
  | c :: s' =>
    if is_digit c then Some (takewhile is_digit s)
    else re_search_digits s'
  end.

(** [int(s)] on a run of digits, as an unbounded integer; the cap some
    interpreters put on the length of [s] is a setting of theirs and is
    left out. *)
Definition int (s : text) : Z :=
  foldl (fun acc c => 10 * acc + Z.of_N (default 0%N (decimal c))) 0 s.

Definition get_openai_client : M unit :=
  w ← get_world;
  match env_api_key w with
  | Some _ => mret tt
  | None => raise OpenAIError
  end.

Definition extract_integer (s : text) : option Z :=
  match re_search_digits s with
  | Some m => Some (int m)
  | None => None
  end.

Definition preprocess_input_with_openai (text_ : text) : M text :=
  get_openai_client;;
  let prompt := lit "다음 문장을 정리해 주세요: " ++ text_ in
  content ← chat_completion AtPreprocess prompt;
  mret (strip content).

Definition get_sentiment_score (text_ : text) : M (option Z) :=
  get_openai_client;;
  let prompt :=
    lit "다음 문장의 감정을 1(공포), 2(놀람), 3(중립), 4(혐오), 5(분노), 6(슬픔), 7(행복)으로 "
    ++ lit "정수형으로 분류해 주세요. 결과는 정수형 숫자만 출력하세요: " ++ text_ in
  content ← chat_completion AtSentiment prompt;
  mret (extract_integer (strip content)).

Definition is_negative_emotion (score : Z) : bool :=
  bool_decide (score ∈ [1; 4; 5; 6]).

Definition is_warning_signal (user_input : text) : M bool :=
  get_openai_client;;
  let prompt :=
    lit "다음 문장에서 자해, 자살, 극단적인 감정과 관련된 위험 신호가 있는 경우 'true', 없으면 'false'만 답하세요: "
    ++ user_input in
  content ← chat_completion AtWarning prompt;
  let result := lower (strip content) in
  mret (contains (lit "true") result).

Definition encrypt_name (name : text) : text := sha256_hexdigest name.

(** [n] in decimal on [width] digits, zero-padded (the lowest [width]
    digits). *)
Fixpoint zero_padded (width : nat) (n : N) : text :=
  match width with
  | O => []
  | S k => zero_padded k (n / 10)%N ++ [(48 + n mod 10)%N]
  end.

(** [dt.strftime("%Y%m%d_%H%M%S")], for the years 1000 to 9999 on which
    every platform prints four digits. *)
Definition strftime (dt : datetime) : text :=
  zero_padded 4 (year dt) ++ zero_padded 2 (month dt)
  ++ zero_padded 2 (day dt) ++ lit "_"
  ++ zero_padded 2 (hour dt) ++ zero_padded 2 (minute dt)
  ++ zero_padded 2 (second dt).

(** [emotion_mapping[key]] *)
Definition emotion_mapping_getitem (key : Z) : M text :=
  match emotion_mapping !! key with
  | Some label => mret label
  | None => raise (KeyError key)
  end.

Definition log_interaction (user_input : text) (sentiment_score : Z)
    (response_text : text) (username : option text) : M unit :=
  now ← datetime_now;
  let timestamp := strftime now in
  label ← emotion_mapping_getitem sentiment_score;
  let log_data := {|
    j_timestamp := Some timestamp;
    j_sentiment_score := Some label;
    j_response := Some response_text;
    j_user_input := Some user_input;
    j_username_hash :=
      if truthy username then encrypt_name <$> username else None
  |} in
  makedirs_logs;;
  json_dump (timestamp ++ lit ".json") log_data.

(** The body of the [for] loop of [load_previous_logs], over the file
    names still to visit. *)
Fixpoint scan_logs (username_hash : text) (limit : Z) (filenames : list text)
    (logs : gmap text log_entry) : M (gmap text log_entry) :=
  match filenames with
  | [] => mret logs
  | filename :: rest =>
    if negb (endswith filename (lit ".json")) then
      scan_logs username_hash limit rest logs
    else
      data ← json_load filename;
      if decide (j_username_hash data = Some username_hash) then
        let timestamp :=
          default (replace filename (lit ".json") []) (j_timestamp data) in
        let logs := <[timestamp := {|
          e_input := default [] (j_user_input data);
          e_response := default [] (j_response data)
        |}]> logs in
        if decide (Z.of_nat (size logs) >= limit) then mret logs
        else scan_logs username_hash limit rest logs
      else scan_logs username_hash limit rest logs
  end.

(** [sorted(names, reverse=True)] and [sorted(logs.items())]; the names of
    a directory and the keys of a dict are pairwise distinct, so the order
    of the result is fixed by the keys alone. *)
Definition sorted_reverse (names : list text) : list text :=
  merge_sort text_ge names.

Definition item_le (a b : text * log_entry) : Prop := text_le a.1 b.1.

Global Instance item_le_dec a b : Decision (item_le a b).
Proof. unfold item_le. apply _. Defined.

Definition sorted_items (logs : gmap text log_entry)
    : list (text * log_entry) :=
  merge_sort item_le (map_to_list logs).

Definition load_previous_logs (username : option text) (limit : Z)
    : M (list (text * log_entry)) :=
  match username with
  | Some ((_ :: _) as name) =>
    let username_hash := encrypt_name name in
    names ← listdir_logs;
    logs ← scan_logs username_hash limit (sorted_reverse names) ∅;
    mret (sorted_items logs)
  | _ => mret []
  end.

Definition generate_response (sentiment_score : Z) (user_input : text)
    (username : option text) : M text :=
  get_openai_client;;
  let dominant_emotion :=
    default (lit "알 수 없음") (emotion_mapping !! sentiment_score) in
  previous_logs ← load_previous_logs username 3;
  let context_lines :=
    match previous_logs with
    | [] => []
    | _ =>
      [lit "이전 상담 대화 기록은 다음과 같습니다:"]
      ++ map (fun '(timestamp, log) =>
                lit "- [" ++ timestamp ++ lit "] 사용자: " ++ e_input log
                ++ [10%N] ++ lit "  응답: " ++ e_response log)
             previous_logs
      ++ [[]]
    end in
  prompt ←
    (if is_negative_emotion sentiment_score then
       warning ← is_warning_signal user_input;
       if (warning : bool) then
         mret (lit "자살, 자해 등 위험 신호가 감지되었습니다. 이에 대한 적절한 응답을 생성해 주세요. "
               ++ lit "특히 상담센터 정보와 같은 도움 되는 정보를 제공해 주세요.")
       else
         mret (lit "사용자가 부정적인 감정을 느끼고 있습니다. 이에 대한 적절한 응답을 생성해 주세요.")
     else
       mret (lit "사용자의 감정에 적절한 공감 메시지를 생성해 주세요."));
  let full_prompt := join [10%N] (context_lines ++ [
    prompt;
    lit "현재 사용자는 특히 '" ++ dominant_emotion ++ lit "' 감정을 느끼고 있습니다.";
    lit "이번 사용자 입력: " ++ user_input
  ]) in
  content ← chat_completion AtResponse full_prompt;
  mret (strip content).

Definition analyze_user_input (user_input : text) : M (option Z) :=
  cleaned_input ← preprocess_input_with_openai user_input;
  get_sentiment_score cleaned_input.

Definition run_pipeline (user_input : text) (username : option text)
    : M text :=
  sentiment_score ← analyze_user_input user_input;
  let sentiment_score :=
    match sentiment_score with
    | None => 3
    | Some score => score
    end in
  response ← generate_response sentiment_score user_input username;
  log_interaction user_input sentiment_score response username;;
  mret response.

Definition generate_farewell_message (username : option text) : M text :=
  get_openai_client;;
  let name_part :=
    match username with
    | Some ((_ :: _) as name) => lit "사용자 이름은 " ++ name ++ lit "입니다. "
    | _ => []
    end in
  let prompt :=
    name_part ++ lit "지금까지 감정에 대해 충분히 이야기했습니다. "
    ++ lit "이제 대화를 마치려고 합니다. 사용자의 감정을 존중하고 따뜻하게 배웅하는 인사말을 한국어로 자연스럽게 작성해 주세요. "
    ++ lit "2문장 이내로 해주세요." in
  content ← chat_completion AtFarewell prompt;
  mret (strip content).

Definition farewell_words : list text :=
  [lit "그만할게요"; lit "수고했어요"; lit "고마워요"; lit "안녕";
   lit "종료"; lit "bye"].

(** The [while True] loop of [main], over the lines the user still types;
    [input(prompt)] writes the prompt and raises [EOFError] when there is
    no line left. *)
Fixpoint main_loop (username : text) (lines : list text) : M unit :=
  write_prompt ([10%N] ++ lit "당신의 감정을 말해 주세요 (종료하려면 '그만할게요', '안녕' 등 입력): ");;
  match lines with
  | [] => raise EOFError
  | line :: lines =>
    let user_input := strip line in
    if bool_decide (lower user_input ∈ farewell_words) then
      farewell ← generate_farewell_message
                   (if truthy (Some username) then Some username else None);
      print ([10%N] ++ farewell)
    else
      response ← run_pipeline user_input (Some username);
      print ([10%N] ++ lit "챗봇: " ++ response);;
      main_loop username lines
  end.

Definition main (lines : list text) : M unit :=
  print (lit "감정 상담 챗봇에 오신 걸 환영합니다. 언제든지 감정을 자유롭게 표현해 주세요.");;
  write_prompt (lit "사용자 이름(선택, 사용자 이름은 암호화되어 저장됩니다): ");;
  match lines with
  | [] => raise EOFError
  | line :: lines => main_loop (strip line) lines
  end.

End MindCare.

(** ** Vocabulary of the statements *)

(** The requests [generate_response] sends when nothing fails. *)
Definition gate_sites (score : Z) : list site :=
  if is_negative_emotion score then [AtWarning; AtResponse] else [AtResponse].

(** The entry [load_previous_logs] keeps for a stored record: its key and
    value in [logs]. *)
Definition entry_of (filename : text) (data : log_data) : text * log_entry :=
  (default (replace filename (lit ".json") []) (j_timestamp data),
   {| e_input := default [] (j_user_input data);
      e_response := default [] (j_response data) |}).

(** A stored record the scan takes for the user with this hash. *)
Definition record_of (dir : gmap text file) (username_hash : text)
    (filename : text) (data : log_data) : Prop :=
  dir !! filename = Some (JsonObject data)
  /\ endswith filename (lit ".json") = true
  /\ j_username_hash data = Some username_hash.

(** A directory as [log_interaction] leaves it: every [.json] file is a
    record stamped with the name of its file. *)
Definition stamped (dir : gmap text file) : Prop :=
  forall filename content,
    dir !! filename = Some content ->
    endswith filename (lit ".json") = true ->
    exists data ts,
      content = JsonObject data
      /\ j_timestamp data = Some ts
      /\ filename = ts ++ lit ".json".

(** A reading a clock can give, and the order of two readings in time. *)
Definition plausible (dt : datetime) : Prop :=
  (1000 <= year dt <= 9999 /\ 1 <= month dt <= 12 /\ 1 <= day dt <= 31
   /\ hour dt <= 23 /\ minute dt <= 59 /\ second dt <= 59)%N.

Definition earlier (a b : datetime) : Prop :=
  (year a < year b \/ year a = year b /\
   (month a < month b \/ month a = month b /\
    (day a < day b \/ day a = day b /\
     (hour a < hour b \/ hour a = hour b /\
      (minute a < minute b \/ minute a = minute b /\
       second a < second b)))))%N.

(** The lines [generate_response] puts before its instruction: the
    retrieved turns, one line each, under a heading and before an empty
    line; nothing when no turn was retrieved. *)
Definition context_lines (previous_logs : list (text * log_entry)) : list text :=
  match previous_logs with
  | [] => []
  | _ =>
    [lit "이전 상담 대화 기록은 다음과 같습니다:"]
    ++ map (fun '(timestamp, log) =>
              lit "- [" ++ timestamp ++ lit "] 사용자: " ++ e_input log
              ++ [10%N] ++ lit "  응답: " ++ e_response log)
           previous_logs
    ++ [[]]
  end.

(** The instruction [generate_response] chooses, from the score and from
    what the risk detector returned. *)
Definition instruction (score : Z) (warning : bool) : text :=
  if is_negative_emotion score then
    if warning then
      lit "자살, 자해 등 위험 신호가 감지되었습니다. 이에 대한 적절한 응답을 생성해 주세요. "
      ++ lit "특히 상담센터 정보와 같은 도움 되는 정보를 제공해 주세요."
    else
      lit "사용자가 부정적인 감정을 느끼고 있습니다. 이에 대한 적절한 응답을 생성해 주세요."
  else
    lit "사용자의 감정에 적절한 공감 메시지를 생성해 주세요.".

(** [full_prompt] of [generate_response]. *)
Definition full_prompt (previous_logs : list (text * log_entry))
    (prompt : text) (score : Z) (user_input : text) : text :=
  join [10%N] (context_lines previous_logs ++ [
    prompt;
    lit "현재 사용자는 특히 '"
      ++ default (lit "알 수 없음") (emotion_mapping !! score)
      ++ lit "' 감정을 느끼고 있습니다.";
    lit "이번 사용자 입력: " ++ user_input
  ]).

(** A text without white space at either end, as [str.strip] leaves it. *)
Definition trimmed `{Runtime} (s : text) : Prop :=
  match s with [] => True | c :: _ => isspace c = false end
  /\ match last s with Some c => isspace c = false | None => True end.



(** ** Worlds for the examples *)

(** A service that answers the n-th request of the run with the n-th
    entry of a script, whatever the prompt. *)
Definition scripted (replies : list (option text)) : nat -> text -> option text :=
  fun n _ => default None (replies !! n).

Definition example_world (replies : list (option text)) (now : datetime)
    (dir : option (gmap text file)) : world :=
  World (Some (lit "sk-example")) (scripted replies) [] (fun _ => now) 0 dir [].

Definition noon : datetime := DateTime 2025 3 14 12 0 0.

(** A record as [log_interaction] writes it for the user [name]. *)
Definition record (stamp label user_input response name : string) : file :=
  JsonObject {|
    j_timestamp := Some (lit stamp);
    j_sentiment_score := Some (lit label);
    j_response := Some (lit response);
    j_user_input := Some (lit user_input);
    j_username_hash := Some (sha256_hexdigest (Runtime:=ascii_runtime) (lit name))
  |}.


(** One record of the user and a note that is not a record. *)
Definition one_record_dir : gmap text file :=
  {[ lit "20250313_090000.json" :=
       record "20250313_090000" "슬픔" "잠을 못 잤어요" "푹 쉬세요." "민지";
     lit "README.txt" := Malformed ]}.

(** The night the clocks go back: a record stamped 01:30, and the local
    time 01:10 again forty minutes later. *)
Definition autumn_dir : gmap text file :=
  {[ lit "20251102_013000.json" :=
       record "20251102_013000" "슬픔" "잠이 안 와요" "따뜻한 차를 드셔 보세요." "민지" ]}.

Definition after_clocks_go_back : datetime := DateTime 2025 11 2 1 10 0.

(** ** The definitions on small inputs *)

Example lit_bye : lit "bye" = [98; 121; 101]%N.
Proof. reflexivity. Qed.

Example lit_fear : lit "공포" = [44277; 54252]%N.
Proof. reflexivity. Qed.

Example replace_json :
  replace (lit "20250101_120000.json") (lit ".json") [] = lit "20250101_120000".
Proof. reflexivity. Qed.

Example replace_twice :
  replace (lit "a.json.json") (lit ".json") [] = lit "a".
Proof. reflexivity. Qed.

Example contains_true : contains (lit "true") (lit "it is true.") = true.
Proof. reflexivity. Qed.

Example text_leb_prefix : text_leb (lit "ab") (lit "abc") = true
                          /\ text_leb (lit "b") (lit "abc") = false.
Proof. split; reflexivity. Qed.


(** ** The order on text *)

Lemma text_leb_refl a : text_leb a a = true.
Proof.
  induction a as [|x a IH]; [done|]. simpl.
  rewrite N.ltb_irrefl, N.eqb_refl. exact IH.
Qed.

Lemma text_leb_total a b : text_leb a b = true \/ text_leb b a = true.
Proof.
  revert b. induction a as [|x a IH]; intros [|y b]; simpl; auto.
  destruct (N.ltb_spec x y), (N.ltb_spec y x); auto; try lia.
  assert (x = y) as -> by lia. rewrite N.eqb_refl. apply IH.
Qed.

Lemma text_leb_trans a b c :
  text_leb a b = true -> text_leb b c = true -> text_leb a c = true.
Proof.
  revert b c. induction a as [|x a IH]; intros [|y b] [|z c]; simpl; try done.
  destruct (N.ltb_spec x y), (N.ltb_spec y z), (N.ltb_spec x z);
    try done; try lia;
    destruct (N.eqb_spec x y), (N.eqb_spec y z), (N.eqb_spec x z);
    try done; try lia.
  apply IH.
Qed.

Lemma text_leb_antisym a b :
  text_leb a b = true -> text_leb b a = true -> a = b.
Proof.
  revert b. induction a as [|x a IH]; intros [|y b]; simpl; try done.
  destruct (N.ltb_spec x y), (N.ltb_spec y x),
    (N.eqb_spec x y), (N.eqb_spec y x); try done; try lia.
  intros ? ?. f_equal; [done|]. by apply IH.
Qed.

Global Instance text_le_po : PartialOrder text_le.
Proof.
  split; [split|].
  - intros a. apply text_leb_refl.
  - intros a b c. apply text_leb_trans.
  - intros a b. apply text_leb_antisym.
Qed.

Global Instance text_le_total : Total text_le.
Proof. intros a b. apply text_leb_total. Qed.

Global Instance text_ge_trans : Transitive text_ge.
Proof. intros a b c Hab Hbc. exact (text_leb_trans _ _ _ Hbc Hab). Qed.

Global Instance text_ge_total : Total text_ge.
Proof. intros a b. destruct (text_leb_total a b); [right|left]; done. Qed.

Global Instance item_le_trans : Transitive item_le.
Proof. intros a b c. apply text_leb_trans. Qed.

Global Instance item_le_total : Total item_le.
Proof. intros a b. apply text_leb_total. Qed.

Lemma text_lt_le a b : text_lt a b -> text_le a b.
Proof.
  unfold text_lt, text_le. intros Hlt.
  destruct (text_leb_total a b) as [?|Hba]; [done|congruence].
Qed.

Lemma text_lt_ne a b : text_lt a b -> a <> b.
Proof.
  unfold text_lt. intros Hlt ->. by rewrite text_leb_refl in Hlt.
Qed.

Lemma text_le_ne_lt a b : text_le a b -> a <> b -> text_lt a b.
Proof.
  unfold text_lt, text_le. intros Hab Hne.
  destruct (text_leb b a) eqn:Hba; [|done].
  destruct Hne. by apply text_leb_antisym.
Qed.

(** ** Running the computations *)

Lemma add_requests_nil w : add_requests [] w = w.
Proof. destruct w. unfold add_requests. simpl. by rewrite app_nil_r. Qed.

Lemma add_requests_app new1 new2 w :
  add_requests new2 (add_requests new1 w) = add_requests (new1 ++ new2) w.
Proof. unfold add_requests. simpl. by rewrite app_assoc. Qed.

Lemma bind_run {A B} (m : M A) (f : A -> M B) w :
  (m ≫= f) w =
  match m w with
  | (Ok a, w') => f a w'
  | (Raise e, w') => (Raise e, w')
  end.
Proof. reflexivity. Qed.

Lemma chat_completion_run at_ prompt w :
  chat_completion at_ prompt w =
  (match oracle w (length (requests w)) prompt with
   | Some content => Ok content
   | None => Raise OpenAIError
   end, add_requests [(at_, prompt)] w).
Proof.
  unfold chat_completion. rewrite !bind_run. simpl.
  by destruct (oracle w _ _).
Qed.

Lemma json_load_run filename w :
  json_load filename w =
  (match logs_dir w with
   | Some dir =>
     match dir !! filename with
     | Some (JsonObject data) => Ok data
     | Some Malformed => Raise JSONDecodeError
     | None => Raise FileNotFoundError
     end
   | None => Raise FileNotFoundError
   end, w).
Proof.
  unfold json_load. rewrite bind_run. simpl.
  destruct (logs_dir w) as [dir|]; [|done].
  by destruct (dir !! filename) as [[]|].
Qed.

Lemma print_run line w :
  print line w = (Ok tt, add_stdout (line ++ [10%N]) w).
Proof. reflexivity. Qed.

Lemma write_prompt_run prompt w :
  write_prompt prompt w = (Ok tt, add_stdout prompt w).
Proof. reflexivity. Qed.

Section Running.
Context `{Runtime}.

Lemma get_openai_client_run w :
  get_openai_client w =
  (match env_api_key w with
   | Some _ => Ok tt
   | None => Raise OpenAIError
   end, w).
Proof.
  unfold get_openai_client. rewrite bind_run. simpl.
  by destruct (env_api_key w).
Qed.

(** The shape shared by the four functions that put one question to the
    service. *)
Lemma ask_run {A} at_ prompt (f : text -> A) w :
  (get_openai_client;; content ← chat_completion at_ prompt; mret (f content)) w
  = match env_api_key w with
    | None => (Raise OpenAIError, w)
    | Some _ =>
      (match oracle w (length (requests w)) prompt with
       | Some content => Ok (f content)
       | None => Raise OpenAIError
       end, add_requests [(at_, prompt)] w)
    end.
Proof.
  rewrite bind_run, get_openai_client_run.
  destruct (env_api_key w); [|done].
  rewrite bind_run, chat_completion_run.
  by destruct (oracle w _ _).
Qed.

(** Retrieval only reads. *)
Lemma scan_logs_world username_hash limit filenames logs w :
  (scan_logs username_hash limit filenames logs w).2 = w.
Proof.
  revert logs. induction filenames as [|filename rest IH]; intros logs; [done|].
  simpl. destruct (negb _); [apply IH|].
  rewrite bind_run, json_load_run.
  destruct (logs_dir w) as [dir|]; [|done].
  destruct (dir !! filename) as [[data|]|]; [|done..].
  destruct (decide (j_username_hash data = _)); [|apply IH].
  destruct (decide (_ >= _)); [done|apply IH].
Qed.

Lemma load_previous_logs_world username limit w :
  (load_previous_logs username limit w).2 = w.
Proof.
  unfold load_previous_logs. destruct username as [[|c name]|]; [done| |done].
  rewrite bind_run. unfold listdir_logs. rewrite bind_run. simpl.
  destruct (logs_dir w) as [dir|]; [|done]. simpl.
  rewrite bind_run.
  pose proof (scan_logs_world (encrypt_name (c :: name)) limit
                (sorted_reverse (map_to_list dir).*1) ∅ w) as Hw.
  destruct (scan_logs _ _ _ _ w) as [[logs|e] w']; simpl in *; by subst.
Qed.

Lemma is_warning_signal_run user_input w :
  exists prompt,
    is_warning_signal user_input w =
    (match env_api_key w with
     | None => (Raise OpenAIError, w)
     | Some _ =>
       (match oracle w (length (requests w)) prompt with
        | Some content =>
          Ok (contains (lit "true") (lower (strip content)))
        | None => Raise OpenAIError
        end, add_requests [(AtWarning, prompt)] w)
     end).
Proof.
  unfold is_warning_signal.
  lazymatch goal with
  | |- context [chat_completion AtWarning ?p] => exists p
  end.
  apply (ask_run AtWarning _ (fun content => contains (lit "true") (lower (strip content)))).
Qed.

Lemma log_interaction_run user_input score response_text username w :
  log_interaction user_input score response_text username w =
  match emotion_mapping !! score with
  | Some label =>
    let timestamp := strftime (clock w (clock_reads w)) in
    (Ok tt,
     set_logs_dir
       (<[timestamp ++ lit ".json" := JsonObject {|
            j_timestamp := Some timestamp;
            j_sentiment_score := Some label;
            j_response := Some response_text;
            j_user_input := Some user_input;
            j_username_hash :=
              if truthy username then encrypt_name <$> username else None
          |}]> (default ∅ (logs_dir w)))
       (tick_clock w))
  | None => (Raise (KeyError score), tick_clock w)
  end.
Proof.
  unfold log_interaction, emotion_mapping_getitem.
  rewrite bind_run. simpl.
  destruct (emotion_mapping !! score); reflexivity.
Qed.

End Running.

(** ** One turn *)

Section Turn.
Context `{Runtime}.

Lemma generate_response_spec score user_input username w :
  exists new,
    (generate_response score user_input username w).2 = add_requests new w
    /\ new.*1 `prefix_of` gate_sites score
    /\ (forall response,
          (generate_response score user_input username w).1 = Ok response ->
          new.*1 = gate_sites score
          /\ exists prompt content,
               last new = Some (AtResponse, prompt)
               /\ oracle w (Nat.pred (length (requests w ++ new))) prompt
                  = Some content
               /\ response = strip content)
    /\ (is_Some (env_api_key w) ->
        (exists logs, (load_previous_logs username 3 w).1 = Ok logs) ->
        is_negative_emotion score = true ->
        exists prompt rest, new = (AtWarning, prompt) :: rest).
Proof.
  unfold generate_response, gate_sites.
  rewrite bind_run, get_openai_client_run.
  destruct (env_api_key w) as [key|] eqn:Hkey.
  2:{ exists []. rewrite add_requests_nil. simpl.
      split_and!; [done|apply prefix_nil|done|by intros [??]]. }
  rewrite bind_run.
  pose proof (load_previous_logs_world username 3 w) as Hw.
  destruct (load_previous_logs username 3 w) as [[logs|e] w1]; simpl in Hw; subst w1.
  2:{ exists []. rewrite add_requests_nil. simpl.
      split_and!; [done|apply prefix_nil|done|by intros _ [??]]. }
  rewrite bind_run.
  destruct (is_negative_emotion score) eqn:Hneg.
  - rewrite bind_run.
    destruct (is_warning_signal_run user_input w) as [wprompt ->].
    rewrite Hkey.
    destruct (oracle w (length (requests w)) wprompt) as [wcontent|].
    2:{ exists [(AtWarning, wprompt)]. simpl.
        split_and!; [done|by apply prefix_cons, prefix_nil|done|by eauto]. }
    set (prompt := if contains _ _ then _ else _).
    assert (exists p, prompt = mret p) as [p ->]
      by (subst prompt; destruct (contains _ _); eauto).
    unfold mret at 1 3, M_ret at 1 3. 
    rewrite bind_run, chat_completion_run.
    set (full_prompt := join _ _).
    exists [(AtWarning, wprompt); (AtResponse, full_prompt)].
    rewrite add_requests_app. cbn [app oracle requests add_requests].
    lazymatch goal with
    | |- context [oracle w ?n full_prompt] =>
      destruct (oracle w n full_prompt) as [content|] eqn:Hcontent
    end.
    + split_and!; [done|done| |by eauto].
      intros response [= <-]. split; [done|].
      exists full_prompt, content. split_and!; [done| |done].
      rewrite length_app. 
      rewrite <-Hcontent. f_equal. rewrite length_app. cbn. lia.
    + split_and!; [done|done|done|by eauto].
  - unfold mret at 1 3, M_ret at 1 3.
    rewrite bind_run, chat_completion_run.
    set (full_prompt := join _ _).
    exists [(AtResponse, full_prompt)].
    lazymatch goal with
    | |- context [oracle w ?n full_prompt] =>
      destruct (oracle w n full_prompt) as [content|] eqn:Hcontent
    end.
    + split_and!; [done|done| |done].
      intros response [= <-]. split; [done|].
      exists full_prompt, content. split_and!; [done| |done].
      rewrite <-Hcontent. f_equal. rewrite length_app. cbn. lia.
    + split_and!; [done|done|done|done].
Qed.



Lemma analyze_user_input_spec user_input w :
  exists new,
    (analyze_user_input user_input w).2 = add_requests new w
    /\ new.*1 `prefix_of` [AtPreprocess; AtSentiment]
    /\ (forall score,
          (analyze_user_input user_input w).1 = Ok score ->
          exists prompt1 prompt2 content,
            new = [(AtPreprocess, prompt1); (AtSentiment, prompt2)]
            /\ oracle w (S (length (requests w))) prompt2 = Some content
            /\ score = extract_integer (strip content)).
Proof.
  unfold analyze_user_input, preprocess_input_with_openai, get_sentiment_score.
  rewrite bind_run, ask_run.
  destruct (env_api_key w) as [key|] eqn:Hkey.
  2:{ exists []. rewrite add_requests_nil.
      split_and!; [done|apply prefix_nil|done]. }
  set (prompt1 := lit _ ++ user_input).
  destruct (oracle w (length (requests w)) prompt1) as [content1|].
  2:{ exists [(AtPreprocess, prompt1)].
      split_and!; [done|by apply prefix_cons, prefix_nil|done]. }
  rewrite ask_run.
  cbn [env_api_key oracle requests add_requests]. rewrite Hkey.
  rewrite add_requests_app.
  set (prompt2 := _ ++ _ ++ strip content1).
  exists [(AtPreprocess, prompt1); (AtSentiment, prompt2)].
  destruct (oracle w _ prompt2) as [content2|] eqn:Hcontent2.
  - split_and!; [done|done|].
    intros score [= <-]. exists prompt1, prompt2, content2.
    split_and!; [done| |done].
    rewrite <-Hcontent2. f_equal. rewrite length_app. cbn. lia.
  - split_and!; done.
Qed.

Lemma run_pipeline_run user_input username w :
  run_pipeline user_input username w =
  match analyze_user_input user_input w with
  | (Raise e, w1) => (Raise e, w1)
  | (Ok classified, w1) =>
    let score := default 3 classified in
    match generate_response score user_input username w1 with
    | (Raise e, w2) => (Raise e, w2)
    | (Ok response, w2) =>
      match log_interaction user_input score response username w2 with
      | (Raise e, w3) => (Raise e, w3)
      | (Ok _, w3) => (Ok response, w3)
      end
    end
  end.
Proof.
  unfold run_pipeline. rewrite bind_run.
  destruct (analyze_user_input user_input w) as [[classified|e] w1]; [|done].
  rewrite bind_run.
  replace (match classified with Some score => score | None => 3 end)
    with (default 3 classified) by (by destruct classified).
  destruct (generate_response _ _ _ w1) as [[response|e] w2]; [|done].
  rewrite bind_run.
  by destruct (log_interaction _ _ _ _ w2) as [[[]|e] w3].
Qed.


End Turn.

(** ** The risk detector *)

Lemma startswith_spec s p :
  startswith s p = true <-> exists post, s = p ++ post.
Proof. unfold startswith. by rewrite bool_decide_eq_true. Qed.

Lemma contains_spec needle hay :
  contains needle hay = true <-> exists pre post, hay = pre ++ needle ++ post.
Proof.
  induction hay as [|c hay IH]; simpl; rewrite orb_true_iff, startswith_spec.
  - split.
    + intros [[post ->]|?]; [|done]. by exists [], post.
    + intros (pre & post & Heq). left.
      destruct pre; [by exists post|done].
  - rewrite IH. split.
    + intros [[post ->]|(pre & post & ->)].
      * by exists [], post.
      * by exists (c :: pre), post.
    + intros (pre & post & Heq). destruct pre as [|c' pre].
      * left. by exists post.
      * right. injection Heq as -> ->. by exists pre, post.
Qed.

Section Risk.
Context `{Runtime}.

(** C8. Whatever the service replies to the risk question, the detector
    returns true exactly when the reply, stripped and lower-cased, contains
    the token [true]; every other reply (an indeterminate one included)
    yields false. *)
Theorem is_warning_signal_affirmative user_input w content :
  is_Some (env_api_key w) ->
  (forall prompt, oracle w (length (requests w)) prompt = Some content) ->
  exists flag,
    (is_warning_signal user_input w).1 = Ok flag
    /\ (flag = true <->
        exists pre post, lower (strip content) = pre ++ lit "true" ++ post)
    /\ (flag = false <-> contains (lit "true") (lower (strip content)) = false).
Proof.
  intros [key Hkey] Hreply.
  destruct (is_warning_signal_run user_input w) as [prompt ->].
  rewrite Hkey, Hreply. cbn [fst].
  eexists. split; [reflexivity|]. split; [apply contains_spec|done].
Qed.

End Risk.

Section RiskExamples.
#[local] Existing Instance ascii_runtime.

Lemma is_warning_signal_affirmative_witness :
  let w := example_world [Some (lit " 글쎄요, 잘 모르겠어요 ")] noon None in
  exists flag,
    (is_warning_signal (lit "요즘 너무 힘들어요") w).1 = Ok flag
    /\ (flag = true <->
        exists pre post,
          lower (strip (lit " 글쎄요, 잘 모르겠어요 ")) = pre ++ lit "true" ++ post)
    /\ (flag = false <->
        contains (lit "true") (lower (strip (lit " 글쎄요, 잘 모르겠어요 "))) = false).
Proof.
  intros w.
  apply (is_warning_signal_affirmative (H:=ascii_runtime)).
  - by eexists.
  - intros prompt. reflexivity.
Defined.

Example is_warning_signal_replies :
  let detect reply :=
    (is_warning_signal (lit "요즘 너무 힘들어요")
       (example_world [Some reply] noon None)).1 in
  detect (lit "true") = Ok true
  /\ detect (lit " True.") = Ok true
  /\ detect (lit "false") = Ok false
  /\ detect (lit "글쎄요, 잘 모르겠어요") = Ok false
  /\ detect (lit "") = Ok false
  /\ detect (lit "Not true") = Ok true.
Proof. vm_compute. done. Qed.

End RiskExamples.

(** ** The risk gate of [generate_response] *)


Section RiskGate.
Context `{Runtime}.


End RiskGate.

Section RiskGateExamples.
#[local] Existing Instance ascii_runtime.


(** The scenario of the specification: the input is classified 1, fear. *)
Example fear_asks_the_detector :
  let w := example_world
    [Some (lit "나는 무서워요"); Some (lit "1"); Some (lit "false");
     Some (lit "많이 무서우셨겠어요.")] noon None in
  let '(r, w') := run_pipeline (lit "나는 너무 무서워요") None w in
  r = Ok (lit "많이 무서우셨겠어요.")
  /\ (requests w').*1 = [AtPreprocess; AtSentiment; AtWarning; AtResponse]
  /\ emotion_mapping !! 1 = Some (lit "공포")
  /\ (fun d => (map_to_list d).*2) <$> logs_dir w' =
     Some [JsonObject {|
       j_timestamp := Some (lit "20250314_120000");
       j_sentiment_score := Some (lit "공포");
       j_response := Some (lit "많이 무서우셨겠어요.");
       j_user_input := Some (lit "나는 너무 무서워요");
       j_username_hash := None |}].
Proof. vm_compute. done. Qed.

Example happiness_skips_the_detector :
  let w := example_world
    [Some (lit "오늘 정말 기뻐요"); Some (lit "7");
     Some (lit "정말 좋은 일이네요!")] noon None in
  let '(r, w') := run_pipeline (lit "오늘 정말 기뻐요!") None w in
  r = Ok (lit "정말 좋은 일이네요!")
  /\ (requests w').*1 = [AtPreprocess; AtSentiment; AtResponse].
Proof. vm_compute. done. Qed.

End RiskGateExamples.

(** ** The farewell *)

Section Farewell.
Context `{Runtime}.

Lemma generate_farewell_message_run username w :
  exists prompt,
    generate_farewell_message username w =
    match env_api_key w with
    | None => (Raise OpenAIError, w)
    | Some _ =>
      (match oracle w (length (requests w)) prompt with
       | Some content => Ok (strip content)
       | None => Raise OpenAIError
       end, add_requests [(AtFarewell, prompt)] w)
    end.
Proof.
  unfold generate_farewell_message.
  lazymatch goal with
  | |- context [chat_completion AtFarewell ?p] => exists p
  end.
  apply (ask_run AtFarewell _ strip).
Qed.


End Farewell.

Section FarewellExamples.
#[local] Existing Instance ascii_runtime.


Example farewell_run :
  let w := example_world [Some (lit " 오늘도 수고 많으셨어요. ")] noon
             (Some ∅) in
  let '(r, w') := main [lit "민지"; lit " 안녕 "; lit "또 올게요"] w in
  r = Ok tt
  /\ (requests w').*1 = [AtFarewell]
  /\ logs_dir w' = Some ∅
  /\ last (stdout w') = Some ([10%N] ++ lit "오늘도 수고 많으셨어요." ++ [10%N]).
Proof. vm_compute. done. Qed.

End FarewellExamples.

(** ** Parsing the classification *)

Lemma emotion_mapping_lookup key :
  emotion_mapping !! key =
  if decide (key = 1) then Some (lit "공포")
  else if decide (key = 2) then Some (lit "놀람")
  else if decide (key = 3) then Some (lit "중립")
  else if decide (key = 4) then Some (lit "혐오")
  else if decide (key = 5) then Some (lit "분노")
  else if decide (key = 6) then Some (lit "슬픔")
  else if decide (key = 7) then Some (lit "행복")
  else None.
Proof.
  unfold emotion_mapping. cbn [list_to_map foldr uncurry].
  repeat (rewrite lookup_insert; case_decide; [subst; by rewrite ?decide_True|];
          rewrite decide_False by done).
  apply lookup_empty.
Qed.

Lemma emotion_mapping_None key :
  emotion_mapping !! key = None <-> key < 1 \/ 7 < key.
Proof.
  rewrite emotion_mapping_lookup.
  repeat case_decide; split; try done; lia.
Qed.

Lemma takewhile_dropwhile p s : takewhile p s ++ dropwhile p s = s.
Proof.
  induction s as [|c s IH]; [done|]. simpl.
  destruct (p c); [|done]. simpl. by rewrite IH.
Qed.

Lemma Forall_takewhile p s : Forall (fun c => p c = true) (takewhile p s).
Proof.
  induction s as [|c s IH]; simpl; [constructor|].
  destruct (p c) eqn:Hc; by constructor.
Qed.

Lemma dropwhile_head p s :
  match dropwhile p s with [] => True | c :: _ => p c = false end.
Proof.
  induction s as [|c s IH]; [done|]. simpl.
  destruct (p c) eqn:Hc; [done|]. simpl. done.
Qed.

Lemma takewhile_app_stop p s ws :
  Forall (fun c => p c = false) ws -> takewhile p (s ++ ws) = takewhile p s.
Proof.
  intros Hws. induction s as [|c s IH]; simpl.
  - destruct Hws as [|c ws Hc]; [done|]. simpl. by rewrite Hc.
  - destruct (p c); [by rewrite IH|done].
Qed.

Lemma Forall_dropwhile (P : N -> Prop) p s :
  Forall P s -> Forall P (dropwhile p s).
Proof.
  induction 1 as [|c s Hc Hs IH]; simpl; [constructor|].
  destruct (p c); [done|by constructor].
Qed.

Section Parsing.
Context `{Runtime}.

Lemma re_search_digits_spec s :
  match re_search_digits s with
  | None => Forall (fun c => is_digit c = false) s
  | Some m =>
    exists pre post,
      s = pre ++ m ++ post
      /\ Forall (fun c => is_digit c = false) pre
      /\ m <> []
      /\ Forall (fun c => is_digit c = true) m
      /\ match post with [] => True | c :: _ => is_digit c = false end
  end.
Proof.
  induction s as [|c s IH]; [constructor|].
  cbn [re_search_digits]. destruct (is_digit c) eqn:Hc.
  - exists [], (dropwhile is_digit (c :: s)).
    split_and!.
    + by rewrite takewhile_dropwhile.
    + constructor.
    + simpl. by rewrite Hc.
    + apply Forall_takewhile.
    + apply dropwhile_head.
  - destruct (re_search_digits s) as [m|].
    + destruct IH as (pre & post & -> & Hpre & Hm & Hdigits & Hpost).
      exists (c :: pre), post. split_and!; try done. by constructor.
    + by constructor.
Qed.

Lemma re_search_digits_None s :
  Forall (fun c => is_digit c = false) s -> re_search_digits s = None.
Proof.
  induction 1 as [|c s Hc Hs IH]; [done|].
  cbn [re_search_digits]. by rewrite Hc.
Qed.

Lemma re_search_digits_app_stop s ws :
  Forall (fun c => is_digit c = false) ws ->
  re_search_digits (s ++ ws) = re_search_digits s.
Proof.
  intros Hws. induction s as [|c s IH].
  - by apply re_search_digits_None.
  - cbn [app re_search_digits]. destruct (is_digit c); [|done].
    f_equal. by apply (takewhile_app_stop is_digit (c :: s)).
Qed.

Lemma re_search_digits_lstrip s :
  (forall c, is_digit c = true -> isspace c = false) ->
  re_search_digits (lstrip s) = re_search_digits s.
Proof.
  intros Hlaw. unfold lstrip. induction s as [|c s IH]; [done|].
  cbn [dropwhile re_search_digits].
  destruct (isspace c) eqn:Hspace; [|done].
  destruct (is_digit c) eqn:Hdigit; [|done].
  apply Hlaw in Hdigit. congruence.
Qed.

Lemma re_search_digits_strip s :
  (forall c, is_digit c = true -> isspace c = false) ->
  re_search_digits (strip s) = re_search_digits s.
Proof.
  intros Hlaw. rewrite <-(re_search_digits_lstrip s) by done.
  unfold strip. set (t := lstrip s).
  rewrite <-(reverse_involutive t) at 2.
  rewrite <-(takewhile_dropwhile isspace (reverse t)) at 2.
  rewrite reverse_app. unfold lstrip.
  symmetry. apply re_search_digits_app_stop.
  apply Forall_reverse.
  eapply Forall_impl; [apply Forall_takewhile|].
  intros c Hspace. simpl in Hspace.
  destruct (is_digit c) eqn:Hdigit; [|done].
  apply Hlaw in Hdigit. congruence.
Qed.

Lemma Forall_strip (P : N -> Prop) s : Forall P s -> Forall P (strip s).
Proof.
  intros Hs. unfold strip, lstrip.
  by apply Forall_reverse, Forall_dropwhile, Forall_reverse, Forall_dropwhile.
Qed.

End Parsing.

(** ** The fallback to neutral *)

Section Fallback.
Context `{Runtime}.

(** Retrieval depends on the world through [logs/] alone. *)
Lemma scan_logs_frame username_hash limit filenames logs w1 w2 :
  logs_dir w1 = logs_dir w2 ->
  (scan_logs username_hash limit filenames logs w1).1
  = (scan_logs username_hash limit filenames logs w2).1.
Proof.
  intros Hdir. revert logs.
  induction filenames as [|filename rest IH]; intros logs; [done|].
  cbn [scan_logs]. destruct (negb _); [apply IH|].
  rewrite !bind_run, !json_load_run, Hdir.
  destruct (logs_dir w2) as [dir|]; [|done].
  destruct (dir !! filename) as [[data|]|]; [|done..].
  destruct (decide (j_username_hash data = _)); [|apply IH].
  destruct (decide (_ >= _)); [done|apply IH].
Qed.

Lemma load_previous_logs_frame username limit w1 w2 :
  logs_dir w1 = logs_dir w2 ->
  (load_previous_logs username limit w1).1
  = (load_previous_logs username limit w2).1.
Proof.
  intros Hdir. unfold load_previous_logs.
  destruct username as [[|c name]|]; [done| |done].
  unfold listdir_logs. rewrite !bind_run. cbn [get_world].
  pose proof Hdir as Hdir'.
  rewrite Hdir. destruct (logs_dir w2) as [dir|] eqn:Hdir2; [|done].
  cbn [mret M_ret]. rewrite !bind_run.
  pose proof (scan_logs_frame (encrypt_name (c :: name)) limit
                (sorted_reverse (map_to_list dir).*1) ∅ w1 w2) as Hscan.
  rewrite Hdir2 in Hscan. specialize (Hscan Hdir').
  destruct (scan_logs _ _ _ _ w1) as [[logs1|e1] w1'],
           (scan_logs _ _ _ _ w2) as [[logs2|e2] w2'];
    cbn [fst] in Hscan; by simplify_eq.
Qed.

Lemma generate_response_calm_run score user_input username w logs :
  is_negative_emotion score = false ->
  is_Some (env_api_key w) ->
  (load_previous_logs username 3 w).1 = Ok logs ->
  exists prompt,
    generate_response score user_input username w =
    (match oracle w (length (requests w)) prompt with
     | Some content => Ok (strip content)
     | None => Raise OpenAIError
     end, add_requests [(AtResponse, prompt)] w).
Proof.
  intros Hcalm [key Hkey] Hlogs. unfold generate_response.
  rewrite bind_run, get_openai_client_run, Hkey, bind_run.
  pose proof (load_previous_logs_world username 3 w) as Hw.
  destruct (load_previous_logs username 3 w) as [[logs'|e] w1];
    cbn [fst snd] in Hw, Hlogs; subst w1; [|done].
  rewrite Hcalm, bind_run. unfold mret at 1, M_ret at 1.
  rewrite bind_run, chat_completion_run.
  set (full_prompt := join _ _). exists full_prompt.
  by destruct (oracle w _ full_prompt).
Qed.

(** C5. The classifier reads the first run of digits of the reply: the
    result is absent exactly when the reply holds no digit, and is
    otherwise the value of the leftmost maximal run; stripping the reply
    first changes nothing, no digit being white space. When the reply holds
    no digit, the pipeline goes on with code 3 after one classification
    request and no second one, and where retrieval and the response request
    succeed the turn returns and is logged as neutral. *)
Theorem classification_fallback user_input username w :
  is_Some (env_api_key w) ->
  (forall reply,
     match extract_integer reply with
     | None => Forall (fun c => is_digit c = false) reply
     | Some n =>
       exists pre run post,
         reply = pre ++ run ++ post
         /\ Forall (fun c => is_digit c = false) pre
         /\ run <> []
         /\ Forall (fun c => is_digit c = true) run
         /\ match post with [] => True | c :: _ => is_digit c = false end
         /\ n = int run
     end)
  /\ ((forall c, is_digit c = true -> isspace c = false) ->
      forall reply, extract_integer (strip reply) = extract_integer reply)
  /\ (forall cleaned reply,
        (forall prompt, oracle w (length (requests w)) prompt = Some cleaned) ->
        (forall prompt, oracle w (S (length (requests w))) prompt = Some reply) ->
        Forall (fun c => is_digit c = false) reply ->
        exists prompt1 prompt2,
          let w1 :=
            add_requests [(AtPreprocess, prompt1); (AtSentiment, prompt2)] w in
          analyze_user_input user_input w = (Ok None, w1)
          /\ run_pipeline user_input username w =
             (response ← generate_response 3 user_input username;
              log_interaction user_input 3 response username;;
              mret response) w1
          /\ (forall logs content,
                (load_previous_logs username 3 w).1 = Ok logs ->
                (forall prompt,
                   oracle w (S (S (length (requests w)))) prompt = Some content) ->
                exists w3 data,
                  run_pipeline user_input username w = (Ok (strip content), w3)
                  /\ (requests w3).*1 =
                     (requests w).*1 ++ [AtPreprocess; AtSentiment; AtResponse]
                  /\ logs_dir w3 =
                     Some (<[strftime (clock w (clock_reads w)) ++ lit ".json"
                             := JsonObject data]> (default ∅ (logs_dir w)))
                  /\ j_sentiment_score data = Some (lit "중립"))).
Proof.
  intros [key Hkey]. split_and!.
  - intros reply. unfold extract_integer.
    pose proof (re_search_digits_spec reply) as Hspec.
    destruct (re_search_digits reply) as [m|]; [|done].
    destruct Hspec as (pre & post & ? & ? & ? & ? & ?).
    by exists pre, m, post.
  - intros Hlaw reply. unfold extract_integer.
    by rewrite re_search_digits_strip.
  - intros cleaned reply Hcleaned Hreply Hnodigit.
    assert (extract_integer (strip reply) = None) as Hnone.
    { unfold extract_integer.
      by rewrite re_search_digits_None by by apply Forall_strip. }
    assert (exists prompt1 prompt2,
              analyze_user_input user_input w =
              (Ok None,
               add_requests [(AtPreprocess, prompt1); (AtSentiment, prompt2)] w))
      as (prompt1 & prompt2 & Hanalyze).
    { unfold analyze_user_input, preprocess_input_with_openai,
        get_sentiment_score.
      rewrite bind_run, ask_run, Hkey, Hcleaned, ask_run.
      cbn [env_api_key oracle requests add_requests].
      rewrite Hkey, add_requests_app, length_app, Nat.add_1_r, Hreply, Hnone.
      by eexists _, _. }
    exists prompt1, prompt2. cbv zeta.
    set (w1 := add_requests _ w) in *.
    split_and!; [done| |].
    + rewrite run_pipeline_run, Hanalyze. cbn [default].
      rewrite bind_run.
      destruct (generate_response 3 user_input username w1)
        as [[response|e] w2]; [|done].
      rewrite bind_run.
      by destruct (log_interaction _ _ _ _ w2) as [[[]|e] w3].
    + intros logs content Hlogs Hcontent.
      rewrite run_pipeline_run, Hanalyze. cbn [default].
      destruct (generate_response_calm_run 3 user_input username w1 logs)
        as [prompt Hrun]; [done|by exists key| |].
      { by rewrite (load_previous_logs_frame _ _ w1 w). }
      rewrite Hrun. subst w1. cbn [oracle requests add_requests].
      rewrite length_app. cbn [length]. rewrite Nat.add_comm. cbn [Nat.add].
      rewrite Hcontent, log_interaction_run, emotion_mapping_lookup.
      cbn [decide_rel]. rewrite !decide_False, decide_True by done. cbv zeta.
      eexists _, _. split_and!; [reflexivity| |reflexivity|reflexivity].
      cbn [requests set_logs_dir tick_clock add_requests].
      by rewrite <-app_assoc, fmap_app.
Qed.

End Fallback.

Section FallbackExamples.
#[local] Existing Instance ascii_runtime.

Lemma classification_fallback_witness :
  let w := example_world
    [Some (lit "기분을 잘 모르겠어요"); Some (lit "모르겠어요");
     Some (lit "천천히 이야기해 주세요.")] noon None in
  exists w3 data,
    run_pipeline (lit "음... 잘 모르겠어요") None w
      = (Ok (strip (lit "천천히 이야기해 주세요.")), w3)
    /\ (requests w3).*1 =
       (requests w).*1 ++ [AtPreprocess; AtSentiment; AtResponse]
    /\ logs_dir w3 =
       Some (<[strftime (clock w (clock_reads w)) ++ lit ".json"
               := JsonObject data]> (default ∅ (logs_dir w)))
    /\ j_sentiment_score data = Some (lit "중립").
Proof.
  intros w.
  destruct (classification_fallback (lit "음... 잘 모르겠어요") None w)
    as (_ & _ & Hturn); [by eexists|].
  destruct (Hturn (lit "기분을 잘 모르겠어요") (lit "모르겠어요"))
    as (prompt1 & prompt2 & _ & _ & Hreturns).
  - intros prompt. reflexivity.
  - intros prompt. reflexivity.
  - compute_done.
  - apply (Hreturns []).
    + reflexivity.
    + intros prompt. reflexivity.
Defined.

(** The scenario of the specification: a reply without digits. *)
Example no_digits_is_neutral :
  let w := example_world
    [Some (lit "기분을 잘 모르겠어요"); Some (lit "모르겠어요");
     Some (lit "천천히 이야기해 주세요.")] noon None in
  let '(r, w') := run_pipeline (lit "음... 잘 모르겠어요") None w in
  extract_integer (lit "모르겠어요") = None
  /\ r = Ok (lit "천천히 이야기해 주세요.")
  /\ (requests w').*1 = [AtPreprocess; AtSentiment; AtResponse]
  /\ (fun d => (map_to_list d).*2) <$> logs_dir w' =
     Some [JsonObject {|
       j_timestamp := Some (lit "20250314_120000");
       j_sentiment_score := Some (lit "중립");
       j_response := Some (lit "천천히 이야기해 주세요.");
       j_user_input := Some (lit "음... 잘 모르겠어요");
       j_username_hash := None |}].
Proof. vm_compute. done. Qed.

Example extract_integer_replies :
  extract_integer (lit "6") = Some 6
  /\ extract_integer (lit "감정: 4 (혐오)") = Some 4
  /\ extract_integer (lit "007 또는 3") = Some 7
  /\ extract_integer (lit "12") = Some 12
  /\ extract_integer (lit "") = None.
Proof. vm_compute. done. Qed.

End FallbackExamples.

(** ** A code outside the mapping *)

Section UnknownCode.
Context `{Runtime}.

(** A classified code outside 1..7 is passed on as it is: the response is
    generated for it and [log_interaction] then raises on the lookup,
    before anything is written. *)
Lemma run_pipeline_unknown_code user_input username w code w1 response w2 :
  analyze_user_input user_input w = (Ok (Some code), w1) ->
  code < 1 \/ 7 < code ->
  generate_response code user_input username w1 = (Ok response, w2) ->
  run_pipeline user_input username w = (Raise (KeyError code), tick_clock w2).
Proof.
  intros Hanalyze Hcode Hresponse.
  rewrite run_pipeline_run, Hanalyze.
  change (default 3 (Some code)) with code. cbv zeta.
  rewrite Hresponse, log_interaction_run.
  apply emotion_mapping_None in Hcode. by rewrite Hcode.
Qed.

(** The first turn of a named user when [logs/] does not exist yet. *)
Lemma generate_response_no_logs_dir score user_input name w :
  is_Some (env_api_key w) ->
  name <> [] ->
  logs_dir w = None ->
  generate_response score user_input (Some name) w
  = (Raise FileNotFoundError, w).
Proof.
  intros [key Hkey] Hname Hdir. unfold generate_response.
  rewrite bind_run, get_openai_client_run, Hkey, bind_run.
  unfold load_previous_logs. destruct name as [|c name]; [done|].
  unfold listdir_logs. rewrite !bind_run. cbn [get_world].
  by rewrite Hdir.
Qed.

End UnknownCode.

Section UnknownCodeExamples.
#[local] Existing Instance ascii_runtime.

(** C1. The classifier's reply is 9: the code reaches [generate_response],
    which words its prompt with the label for an unknown code and gets a
    response, and [log_interaction] then raises [KeyError] on it; the turn
    fails and nothing is logged. *)
Theorem unknown_code_reaches_logging :
  let w := example_world
    [Some (lit "기분이 이상해요"); Some (lit "9"); Some (lit "그러셨군요.")]
    noon (Some ∅) in
  let '(r, w') := run_pipeline (lit "기분이 이상해요") None w in
  (analyze_user_input (lit "기분이 이상해요") w).1 = Ok (Some 9)
  /\ emotion_mapping !! 9 = None
  /\ r = Raise (KeyError 9)
  /\ (requests w').*1 = [AtPreprocess; AtSentiment; AtResponse]
  /\ (exists prompt,
        last (requests w') = Some (AtResponse, prompt)
        /\ contains (lit "'알 수 없음' 감정") prompt = true)
  /\ logs_dir w' = Some ∅.
Proof.
  vm_compute. split_and!; try done. eexists. split; reflexivity.
Qed.

(** The first turn of a named session, before [logs/] exists:
    [os.listdir] raises inside [load_previous_logs], the turn ends in
    [FileNotFoundError] without a response, and since [log_interaction],
    which creates the directory, is never reached, it is still missing for
    the next turn. The same turn without a name goes through. *)
Example first_named_turn_fails :
  let w := example_world
    [Some (lit "오늘 조금 우울해요"); Some (lit "6"); Some (lit "false");
     Some (lit "많이 힘드셨겠어요.")] noon None in
  let '(r, w') := run_pipeline (lit "오늘 조금 우울해요") (Some (lit "민지")) w in
  (load_previous_logs (Some (lit "민지")) 3 w).1 = Raise FileNotFoundError
  /\ r = Raise FileNotFoundError
  /\ (requests w').*1 = [AtPreprocess; AtSentiment]
  /\ logs_dir w' = None
  /\ (run_pipeline (lit "오늘 조금 우울해요") None w).1
     = Ok (lit "많이 힘드셨겠어요.").
Proof. vm_compute. done. Qed.

End UnknownCodeExamples.

(** ** The scan of [logs/] *)

Lemma sorted_reverse_Permutation names : sorted_reverse names ≡ₚ names.
Proof. apply merge_sort_Permutation. Qed.

Lemma sorted_reverse_sorted names : StronglySorted text_ge (sorted_reverse names).
Proof. apply StronglySorted_merge_sort; apply _. Qed.

Lemma sorted_items_Permutation logs : sorted_items logs ≡ₚ map_to_list logs.
Proof. apply merge_sort_Permutation. Qed.

Lemma elem_of_sorted_items logs ts e :
  (ts, e) ∈ sorted_items logs <-> logs !! ts = Some e.
Proof. by rewrite sorted_items_Permutation, elem_of_map_to_list. Qed.

Lemma length_sorted_items logs : length (sorted_items logs) = size logs.
Proof. by rewrite sorted_items_Permutation, length_map_to_list. Qed.

Lemma StronglySorted_keys (l : list (text * log_entry)) :
  StronglySorted item_le l -> NoDup l.*1 -> StronglySorted text_lt l.*1.
Proof.
  induction 1 as [|a l Hl IH Ha]; intros Hnodup; [constructor|].
  cbn in Hnodup. apply NoDup_cons in Hnodup as [Hnotin Hnodup].
  cbn. constructor; [by apply IH|].
  apply Forall_fmap, Forall_forall. intros b Hb.
  rewrite Forall_forall in Ha.
  apply text_le_ne_lt; [by apply Ha|].
  intros Heq. apply Hnotin. rewrite Heq. by apply list_elem_of_fmap_2.
Qed.

Lemma sorted_items_keys logs : StronglySorted text_lt (sorted_items logs).*1.
Proof.
  apply StronglySorted_keys.
  - apply StronglySorted_merge_sort; apply _.
  - rewrite sorted_items_Permutation. apply NoDup_fst_map_to_list.
Qed.

Section Scan.
Context `{Runtime}.

Lemma scan_logs_cons username_hash limit filename rest logs w dir :
  logs_dir w = Some dir ->
  (scan_logs username_hash limit (filename :: rest) logs w).1 =
  if negb (endswith filename (lit ".json"))
  then (scan_logs username_hash limit rest logs w).1
  else
    match dir !! filename with
    | Some (JsonObject data) =>
      if decide (j_username_hash data = Some username_hash) then
        let logs1 :=
          <[(entry_of filename data).1 := (entry_of filename data).2]> logs in
        if decide (Z.of_nat (size logs1) >= limit) then Ok logs1
        else (scan_logs username_hash limit rest logs1 w).1
      else (scan_logs username_hash limit rest logs w).1
    | Some Malformed => Raise JSONDecodeError
    | None => Raise FileNotFoundError
    end.
Proof.
  intros Hdir. cbn [scan_logs]. destruct (negb _); [done|].
  rewrite bind_run, json_load_run, Hdir.
  destruct (dir !! filename) as [[data|]|]; [|done..].
  destruct (decide (j_username_hash data = _)); [|done].
  cbv zeta. by destruct (decide (_ >= _)).
Qed.

Lemma load_previous_logs_named name limit w dir :
  name <> [] ->
  logs_dir w = Some dir ->
  (load_previous_logs (Some name) limit w).1 =
  match (scan_logs (encrypt_name name) limit
           (sorted_reverse (map_to_list dir).*1) ∅ w).1 with
  | Ok logs => Ok (sorted_items logs)
  | Raise e => Raise e
  end.
Proof.
  intros Hname Hdir. unfold load_previous_logs.
  destruct name as [|c name]; [done|].
  unfold listdir_logs. rewrite !bind_run. cbn [get_world]. rewrite Hdir.
  cbn [mret M_ret]. rewrite bind_run.
  by destruct (scan_logs _ _ _ _ w) as [[logs|e] w'].
Qed.

Lemma load_previous_logs_anonymous username limit w :
  truthy username = false ->
  load_previous_logs username limit w = (Ok [], w).
Proof. by destruct username as [[|c name]|]. Qed.

(** Every entry the scan adds comes from a record of the user. *)
Lemma scan_logs_provenance username_hash limit filenames logs w dir logs' :
  logs_dir w = Some dir ->
  (scan_logs username_hash limit filenames logs w).1 = Ok logs' ->
  forall ts e,
    logs' !! ts = Some e ->
    logs !! ts = Some e
    \/ exists filename data,
         filename ∈ filenames
         /\ record_of dir username_hash filename data
         /\ entry_of filename data = (ts, e).
Proof.
  intros Hdir. revert logs.
  induction filenames as [|filename rest IH]; intros logs Hscan ts e Hts.
  { cbn in Hscan. injection Hscan as <-. by left. }
  rewrite (scan_logs_cons _ _ _ _ _ _ dir) in Hscan by done.
  assert (forall logs0,
            (scan_logs username_hash limit rest logs0 w).1 = Ok logs' ->
            logs0 !! ts = Some e
            \/ exists filename0 data,
                 filename0 ∈ filename :: rest
                 /\ record_of dir username_hash filename0 data
                 /\ entry_of filename0 data = (ts, e)) as IH'.
  { intros logs0 Hscan0.
    destruct (IH logs0 Hscan0 ts e Hts) as [?|(f & data & ? & ? & ?)];
      [by left|right].
    exists f, data. split_and!; [by apply list_elem_of_further|done..]. }
  destruct (endswith filename (lit ".json")) eqn:Hjson; cbn [negb] in Hscan;
    [|by apply IH'].
  destruct (dir !! filename) as [[data|]|] eqn:Hfile; [|done..].
  destruct (decide (j_username_hash data = _)) as [Hhash|]; [|by apply IH'].
  cbv zeta in Hscan.
  assert (forall logs0,
            logs0 = <[(entry_of filename data).1 := (entry_of filename data).2]> logs ->
            logs0 !! ts = Some e ->
            logs !! ts = Some e
            \/ exists filename0 data0,
                 filename0 ∈ filename :: rest
                 /\ record_of dir username_hash filename0 data0
                 /\ entry_of filename0 data0 = (ts, e)) as Hinsert.
  { intros logs0 -> Hlookup.
    destruct (decide ((entry_of filename data).1 = ts)) as [Hkey|Hkey].
    - right. exists filename, data.
      rewrite Hkey, lookup_insert_eq in Hlookup. injection Hlookup as He.
      split_and!; [by apply list_elem_of_here|done|].
      by subst.
    - left. by rewrite lookup_insert_ne in Hlookup. }
  destruct (decide (_ >= _)).
  - injection Hscan as <-. by eapply Hinsert.
  - destruct (IH' _ Hscan) as [?|?]; [by eapply Hinsert|by right].
Qed.

(** The scan stops as soon as [logs] holds [limit] entries, looking at the
    size only after an insertion. *)
Lemma scan_logs_size username_hash limit filenames logs w dir logs' :
  logs_dir w = Some dir ->
  (scan_logs username_hash limit filenames logs w).1 = Ok logs' ->
  Z.of_nat (size logs) < limit \/ logs = ∅ ->
  Z.of_nat (size logs') <= Z.max limit 1.
Proof.
  intros Hdir. revert logs.
  induction filenames as [|filename rest IH]; intros logs Hscan Hsize.
  { cbn in Hscan. injection Hscan as <-.
    destruct Hsize as [?| ->]; [lia|]. rewrite map_size_empty. lia. }
  rewrite (scan_logs_cons _ _ _ _ _ _ dir) in Hscan by done.
  destruct (negb _); [by apply (IH logs)|].
  destruct (dir !! filename) as [[data|]|]; [|done..].
  destruct (decide (j_username_hash data = _)); [|by apply (IH logs)].
  cbv zeta in Hscan.
  set (logs1 := <[_ := _]> logs) in *.
  assert (size logs1 <= S (size logs))%nat as Hgrow.
  { subst logs1. rewrite map_size_insert.
    destruct (logs !! _); unfold id; lia. }
  destruct (decide (_ >= _)).
  - injection Hscan as <-.
    destruct Hsize as [?| ->]; [lia|]. rewrite map_size_empty in Hgrow. lia.
  - apply (IH logs1); [done|]. left. lia.
Qed.

(** What a retrieval that returns gives back, whatever the limit. *)
Lemma load_previous_logs_recent name limit w logs :
  name <> [] ->
  (load_previous_logs (Some name) limit w).1 = Ok logs ->
  Z.of_nat (length logs) <= Z.max limit 1
  /\ StronglySorted text_lt logs.*1
  /\ exists dir,
       logs_dir w = Some dir
       /\ forall ts e,
            (ts, e) ∈ logs ->
            exists filename data,
              record_of dir (encrypt_name name) filename data
              /\ entry_of filename data = (ts, e).
Proof.
  intros Hname Hload.
  destruct (logs_dir w) as [dir|] eqn:Hdir.
  2:{ unfold load_previous_logs in Hload. destruct name; [done|].
      unfold listdir_logs in Hload. rewrite !bind_run in Hload.
      cbn [get_world] in Hload. by rewrite Hdir in Hload. }
  rewrite (load_previous_logs_named _ _ _ dir) in Hload by done.
  destruct (scan_logs _ _ _ _ w).1 as [scanned|e] eqn:Hscan; [|done].
  injection Hload as <-. split_and!.
  - rewrite length_sorted_items.
    eapply scan_logs_size; [done..|by right].
  - apply sorted_items_keys.
  - exists dir. split; [done|]. intros ts e Hin.
    apply elem_of_sorted_items in Hin.
    destruct (scan_logs_provenance _ _ _ _ _ _ _ Hdir Hscan ts e Hin)
      as [Hempty|(filename & data & _ & ? & ?)]; [|by eauto].
    by rewrite lookup_empty in Hempty.
Qed.


End Scan.

Section ScanExamples.
#[local] Existing Instance ascii_runtime.


(** C4. With [limit = 0] the scan still stores the first record of the
    user before it looks at the size, and returns it; a negative limit does
    the same. Without a name the result is empty. *)
Theorem limit_zero_returns_a_record :
  let w := example_world [] noon (Some one_record_dir) in
  (load_previous_logs (Some (lit "민지")) 0 w).1
  = Ok [(lit "20250313_090000",
         {| e_input := lit "잠을 못 잤어요"; e_response := lit "푹 쉬세요." |})]
  /\ (load_previous_logs (Some (lit "민지")) (-1) w).1
     = (load_previous_logs (Some (lit "민지")) 0 w).1
  /\ (load_previous_logs None 0 w).1 = Ok []
  /\ (load_previous_logs (Some (lit "")) 0 w).1 = Ok [].
Proof. vm_compute. done. Qed.

End ScanExamples.

(** ** Unreadable records *)

Section Unreadable.
Context `{Runtime}.




Lemma elem_of_listdir (dir : gmap text file) filename :
  filename ∈ sorted_reverse (map_to_list dir).*1 <-> is_Some (dir !! filename).
Proof.
  rewrite sorted_reverse_Permutation, list_elem_of_fmap. split.
  - intros ([f content] & -> & Hin). apply elem_of_map_to_list in Hin. eauto.
  - intros [content Hfile]. exists (filename, content).
    split; [done|]. by apply elem_of_map_to_list.
Qed.


End Unreadable.

Section UnreadableExamples.
#[local] Existing Instance ascii_runtime.



End UnreadableExamples.

(** ** Appending and reading back *)

Section RoundTrip.
Context `{Runtime}.

(** Names that do not end in [.json] are passed over. *)
Lemma scan_logs_skip username_hash limit skipped filenames logs w :
  Forall (fun filename => endswith filename (lit ".json") = false) skipped ->
  scan_logs username_hash limit (skipped ++ filenames) logs w
  = scan_logs username_hash limit filenames logs w.
Proof.
  induction 1 as [|filename skipped Hjson _ IH]; [done|].
  cbn [app scan_logs]. by rewrite Hjson.
Qed.

(** An entry stays as it is while the scan reads readable records stored
    under other keys. *)
Lemma scan_logs_keeps username_hash limit filenames logs w dir ts e :
  logs_dir w = Some dir ->
  (forall filename,
     filename ∈ filenames ->
     endswith filename (lit ".json") = true ->
     exists data,
       dir !! filename = Some (JsonObject data)
       /\ (entry_of filename data).1 <> ts) ->
  logs !! ts = Some e ->
  exists logs',
    (scan_logs username_hash limit filenames logs w).1 = Ok logs'
    /\ logs' !! ts = Some e.
Proof.
  intros Hdir. revert logs.
  induction filenames as [|filename rest IH]; intros logs Hothers Hts.
  { by exists logs. }
  assert (forall logs0,
            logs0 !! ts = Some e ->
            exists logs',
              (scan_logs username_hash limit rest logs0 w).1 = Ok logs'
              /\ logs' !! ts = Some e) as IH'.
  { intros logs0. apply IH. intros f Hf. apply Hothers.
    by apply list_elem_of_further. }
  rewrite (scan_logs_cons _ _ _ _ _ _ dir) by done.
  destruct (endswith filename (lit ".json")) eqn:Hjson; cbn [negb];
    [|by apply IH'].
  destruct (Hothers filename) as (data & -> & Hkey);
    [apply list_elem_of_here|done|].
  destruct (decide (j_username_hash data = _)); [|by apply IH'].
  cbv zeta.
  assert (<[(entry_of filename data).1 := (entry_of filename data).2]> logs
            !! ts = Some e) as Hts' by by rewrite lookup_insert_ne.
  destruct (decide (_ >= _)); [by eexists|by apply IH'].
Qed.

Lemma StronglySorted_split_ge (l1 l2 : list text) x y :
  StronglySorted text_ge (l1 ++ x :: l2) -> y ∈ l1 -> text_le x y.
Proof.
  intros Hsorted Hy.
  apply StronglySorted_app_1_elem_of with (x1 := y) (x2 := x) in Hsorted;
    [done|done|apply list_elem_of_here].
Qed.

(** C9, under what the code needs for it. In a directory whose [.json]
    files are all records stamped with their file names, none of them with
    a name greater than the name of the new record's file, a record
    appended for a named user is read back by the retrieval that follows,
    for the same name and any limit of 1 or more: the result holds the
    entry under the record's timestamp with the [user_input] and the
    [response_text] that were written. The first record of the user is
    stored before the limit is looked at, so the proof has no use for the
    bound on the limit. *)
Theorem append_then_recent user_input score response_text name limit w :
  name <> [] ->
  1 <= limit ->
  is_Some (emotion_mapping !! score) ->
  stamped (default ∅ (logs_dir w)) ->
  (forall filename,
     is_Some (default ∅ (logs_dir w) !! filename) ->
     endswith filename (lit ".json") = true ->
     text_le filename (strftime (clock w (clock_reads w)) ++ lit ".json")) ->
  exists w' logs,
    log_interaction user_input score response_text (Some name) w = (Ok tt, w')
    /\ (load_previous_logs (Some name) limit w').1 = Ok logs
    /\ (strftime (clock w (clock_reads w)),
        {| e_input := user_input; e_response := response_text |}) ∈ logs.
Proof.
  intros Hname _ [label Hlabel] Hstamped Hnewest.
  rewrite log_interaction_run, Hlabel. cbv zeta.
  set (ts := strftime (clock w (clock_reads w))) in *.
  set (dir0 := default ∅ (logs_dir w)) in *.
  set (data := {| j_timestamp := Some ts |}).
  set (dir := <[ts ++ lit ".json" := JsonObject data]> dir0).
  set (w' := set_logs_dir dir (tick_clock w)).
  set (entry := {| e_input := user_input; e_response := response_text |}).
  assert (logs_dir w' = Some dir) as Hdir by done.
  assert (endswith (ts ++ lit ".json") (lit ".json") = true) as Hjson.
  { apply bool_decide_eq_true. by eexists. }
  assert (entry_of (ts ++ lit ".json") data = (ts, entry)) as Hentry by done.
  assert (j_username_hash data = Some (encrypt_name name)) as Hhash.
  { cbn. by destruct name. }
  exists w'. 
  rewrite (load_previous_logs_named name limit w' dir) by done.
  set (names := sorted_reverse (map_to_list dir).*1).
  assert (ts ++ lit ".json" ∈ names) as Hin.
  { apply elem_of_listdir. subst dir. rewrite lookup_insert_eq. by eexists. }
  apply list_elem_of_split in Hin as (newer & older & Hnames).
  assert (NoDup names) as Hnodup.
  { subst names. rewrite sorted_reverse_Permutation.
    apply NoDup_fst_map_to_list. }
  pose proof (sorted_reverse_sorted (map_to_list dir).*1) as Hsorted.
  fold names in Hsorted. rewrite Hnames in Hsorted, Hnodup.
  assert (forall filename,
            filename ∈ newer ++ older ->
            filename <> ts ++ lit ".json"
            /\ dir !! filename = dir0 !! filename
            /\ is_Some (dir0 !! filename)) as Hother.
  { intros filename Hfilename.
    assert (filename <> ts ++ lit ".json") as Hne.
    { intros ->. apply NoDup_app in Hnodup as (_ & Hdisjoint & Hnodup).
      apply NoDup_cons in Hnodup as [Hnotin _].
      apply elem_of_app in Hfilename as [Hnewer|Holder]; [|done].
      apply (Hdisjoint _ Hnewer), list_elem_of_here. }
    assert (dir !! filename = dir0 !! filename) as Hlookup
      by (subst dir; by rewrite lookup_insert_ne).
    split_and!; [done..|]. rewrite <-Hlookup. apply elem_of_listdir.
    fold names. rewrite Hnames.
    apply elem_of_app in Hfilename as [?|?];
      [by apply elem_of_app; left
      |by apply elem_of_app; right; apply list_elem_of_further]. }
  assert (Forall (fun filename => endswith filename (lit ".json") = false) newer)
    as Hnewer.
  { apply Forall_forall. intros filename Hfilename.
    destruct (endswith filename (lit ".json")) eqn:Hjson'; [|done].
    destruct (Hother filename) as (Hne & _ & Hstored);
      [by apply elem_of_app; left|].
    destruct Hne. apply (anti_symm text_le).
    - by apply Hnewest.
    - by eapply StronglySorted_split_ge. }
  rewrite Hnames, scan_logs_skip by done.
  rewrite (scan_logs_cons _ _ _ _ _ _ dir) by done.
  rewrite Hjson. cbn [negb]. subst dir. rewrite lookup_insert_eq.
  rewrite decide_True by done. cbv zeta. rewrite Hentry. cbn [fst snd].
  destruct (decide (_ >= _)).
  { eexists. split; [reflexivity|]. split; [reflexivity|].
    apply elem_of_sorted_items, lookup_insert_eq. }
  destruct (scan_logs_keeps (encrypt_name name) limit older
              (<[ts := entry]> ∅) w'
              (<[ts ++ lit ".json" := JsonObject data]> dir0) ts entry)
    as (scanned & -> & Hkept); [done| |apply lookup_insert_eq|].
  { intros filename Hfilename Hjson'.
    destruct (Hother filename) as (Hne & -> & [content Hstored]);
      [by apply elem_of_app; right|].
    destruct (Hstamped filename content Hstored Hjson')
      as (data' & ts' & -> & Hts' & ->).
    exists data'. split; [done|].
    unfold entry_of. rewrite Hts'. cbn. by intros ->. }
  eexists. split; [reflexivity|]. split; [reflexivity|].
  by apply elem_of_sorted_items.
Qed.

End RoundTrip.

Section RoundTripExamples.
#[local] Existing Instance ascii_runtime.

Lemma append_then_recent_witness :
  let w := example_world [] noon (Some one_record_dir) in
  exists w' logs,
    log_interaction (lit "오늘은 괜찮아요") 3 (lit "다행이에요.")
      (Some (lit "민지")) w = (Ok tt, w')
    /\ (load_previous_logs (Some (lit "민지")) 3 w').1 = Ok logs
    /\ (strftime (clock w (clock_reads w)),
        {| e_input := lit "오늘은 괜찮아요"; e_response := lit "다행이에요." |})
       ∈ logs.
Proof.
  intros w.
  apply (append_then_recent (lit "오늘은 괜찮아요") 3 (lit "다행이에요.")
           (lit "민지") 3 w).
  - done.
  - lia.
  - by eexists.
  - intros filename content Hfile Hjson.
    cbn in Hfile. unfold one_record_dir in Hfile.
    apply lookup_insert_Some in Hfile as [[<- <-]|[_ Hfile]].
    + by eexists _, (lit "20250313_090000").
    + apply lookup_singleton_Some in Hfile as [<- _].
      by vm_compute in Hjson.
  - intros filename [content Hfile] Hjson.
    cbn in Hfile. unfold one_record_dir in Hfile.
    apply lookup_insert_Some in Hfile as [[<- <-]|[_ Hfile]].
    + by vm_compute.
    + apply lookup_singleton_Some in Hfile as [<- _].
      by vm_compute in Hjson.
Defined.

(** C9, as the claim states it, fails: the directory holds a record of the
    user stamped 01:30, the clocks have gone back and it is 01:10; the
    record appended now is not the newest by name, and the retrieval that
    follows, with limit 1, returns the record of 01:30 and not the one
    just written. *)
Lemma append_then_recent_misses :
  let w := example_world [] after_clocks_go_back (Some autumn_dir) in
  let '(r, w') :=
    log_interaction (lit "여전히 잠이 안 와요") 6 (lit "걱정이 많으셨군요.")
      (Some (lit "민지")) w in
  r = Ok tt
  /\ (load_previous_logs (Some (lit "민지")) 1 w').1
     = Ok [(lit "20251102_013000",
            {| e_input := lit "잠이 안 와요";
               e_response := lit "따뜻한 차를 드셔 보세요." |})]
  /\ (load_previous_logs (Some (lit "민지")) 3 w').1
     = Ok [(lit "20251102_011000",
            {| e_input := lit "여전히 잠이 안 와요";
               e_response := lit "걱정이 많으셨군요." |});
           (lit "20251102_013000",
            {| e_input := lit "잠이 안 와요";
               e_response := lit "따뜻한 차를 드셔 보세요." |})].
Proof. vm_compute. done. Qed.

End RoundTripExamples.

(** ** The store invariant *)

Section Invariant.
Context `{Runtime}.




End Invariant.

Section InvariantExamples.
#[local] Existing Instance ascii_runtime.


End InvariantExamples.

(** ** A failed read during retrieval *)

Section ReadFailure.
Context `{Runtime}.


Lemma analyze_user_input_ok user_input w :
  is_Some (env_api_key w) ->
  (forall n prompt, is_Some (oracle w n prompt)) ->
  exists classified prompt1 prompt2,
    analyze_user_input user_input w =
    (Ok classified,
     add_requests [(AtPreprocess, prompt1); (AtSentiment, prompt2)] w).
Proof.
  intros [key Hkey] Horacle.
  unfold analyze_user_input, preprocess_input_with_openai, get_sentiment_score.
  rewrite bind_run, ask_run, Hkey.
  set (prompt1 := lit _ ++ user_input).
  destruct (Horacle (length (requests w)) prompt1) as [content1 ->].
  rewrite ask_run. cbn [env_api_key oracle requests add_requests].
  rewrite Hkey, add_requests_app.
  set (prompt2 := _ ++ _ ++ strip content1).
  destruct (Horacle (length (requests w ++ [(AtPreprocess, prompt1)])) prompt2)
    as [content2 ->].
  by eexists _, prompt1, prompt2.
Qed.


End ReadFailure.

Section ReadFailureExamples.
#[local] Existing Instance ascii_runtime.



End ReadFailureExamples.

(** ** Stamps and time *)

Lemma text_leb_app (a a' x x' : text) :
  length a = length a' ->
  text_leb (a ++ x) (a' ++ x') =
  if decide (a = a') then text_leb x x' else text_leb a a'.
Proof.
  revert a'. induction a as [|c a IH]; intros [|c' a'] Hlen; try done.
  injection Hlen as Hlen. cbn [app text_leb].
  destruct (N.ltb_spec c c').
  { rewrite decide_False; [done|]. intros [= ? ?]. lia. }
  destruct (N.eqb_spec c c') as [->|Hne].
  - rewrite IH by done.
    destruct (decide (a = a')) as [->|Hne].
    + by rewrite decide_True.
    + rewrite decide_False; [done|]. by intros [= ?].
  - rewrite decide_False; [done|]. by intros [= ? ?].
Qed.

Lemma length_zero_padded width n : length (zero_padded width n) = width.
Proof.
  revert n. induction width as [|width IH]; intros n; [done|].
  cbn [zero_padded]. rewrite length_app, IH. cbn. lia.
Qed.

Lemma zero_padded_inj width m n :
  (m < 10 ^ N.of_nat width)%N -> (n < 10 ^ N.of_nat width)%N ->
  zero_padded width m = zero_padded width n -> m = n.
Proof.
  revert m n. induction width as [|width IH]; intros m n Hm Hn Heq.
  { cbn in Hm, Hn. lia. }
  rewrite Nat2N.inj_succ, N.pow_succ_r' in Hm, Hn.
  cbn [zero_padded] in Heq.
  apply app_inj_1 in Heq as [Hhigh [= Hlow]];
    [|by rewrite !length_zero_padded].
  apply IH in Hhigh; [|apply N.Div0.div_lt_upper_bound; lia..].
  rewrite (N.div_mod' m 10), (N.div_mod' n 10). lia.
Qed.

Lemma zero_padded_leb width m n :
  (m < 10 ^ N.of_nat width)%N -> (n < 10 ^ N.of_nat width)%N ->
  text_leb (zero_padded width m) (zero_padded width n) = (m <=? n)%N.
Proof.
  revert m n. induction width as [|width IH]; intros m n Hm Hn.
  { cbn in *. symmetry. apply N.leb_le. lia. }
  rewrite Nat2N.inj_succ, N.pow_succ_r' in Hm, Hn.
  assert (m / 10 < 10 ^ N.of_nat width)%N as Hm'
    by (apply N.Div0.div_lt_upper_bound; lia).
  assert (n / 10 < 10 ^ N.of_nat width)%N as Hn'
    by (apply N.Div0.div_lt_upper_bound; lia).
  cbn [zero_padded]. rewrite text_leb_app by by rewrite !length_zero_padded.
  pose proof (N.div_mod' m 10). pose proof (N.div_mod' n 10).
  assert (m mod 10 < 10)%N by (by apply N.mod_upper_bound).
  assert (n mod 10 < 10)%N by (by apply N.mod_upper_bound).
  destruct (decide (zero_padded width (m / 10) = zero_padded width (n / 10)))
    as [Heq|Hne].
  - apply zero_padded_inj in Heq; [|done..]. cbn [text_leb].
    destruct (N.ltb_spec (48 + m mod 10) (48 + n mod 10)).
    + symmetry. apply N.leb_le. lia.
    + destruct (N.eqb_spec (48 + m mod 10) (48 + n mod 10)).
      * symmetry. apply N.leb_le. lia.
      * symmetry. apply N.leb_gt. lia.
  - rewrite IH by done.
    assert (m / 10 <> n / 10)%N by (by intros Heq; rewrite Heq in Hne).
    clear IH Hm Hn Hm' Hn' Hne.
    destruct (N.leb_spec (m / 10) (n / 10)); symmetry;
      [apply N.leb_le|apply N.leb_gt];
      generalize dependent (m mod 10)%N; generalize dependent (n mod 10)%N;
      generalize dependent (m / 10)%N; generalize dependent (n / 10)%N;
      intros; lia.
Qed.

(** The stamps of [log_interaction] sort as the clock readings do: the
    order of two file names, and of two keys of the retrieved context, is
    the order in time. *)
Lemma strftime_chronological a b :
  plausible a -> plausible b ->
  text_lt (strftime a) (strftime b) <-> earlier a b.
Proof.
  intros (Hya & Hma & Hda & Hha & Hmia & Hsa) (Hyb & Hmb & Hdb & Hhb & Hmib & Hsb).
  unfold text_lt, strftime, earlier.
  assert (10 ^ N.of_nat 4 = 10000)%N as H4 by done.
  assert (10 ^ N.of_nat 2 = 100)%N as H2 by done.
  rewrite !text_leb_app by (by rewrite ?length_zero_padded).
  rewrite zero_padded_leb by lia.
  repeat case_decide;
    repeat match goal with
    | H : zero_padded _ _ = zero_padded _ _ |- _ =>
      apply zero_padded_inj in H; [|lia..]
    | H : zero_padded ?k ?m <> zero_padded ?k ?n |- _ =>
      assert (m <> n) by (by intros Heq; rewrite Heq in H); clear H
    end;
    try done;
    rewrite ?zero_padded_leb by lia;
    rewrite ?N.leb_gt; lia.
Qed.

Section MoreExamples.
#[local] Existing Instance ascii_runtime.

(** Two turns of one named user: the prompt of the second response request
    renders the first turn. *)
Example second_turn_sees_the_first :
  let w := World (Some (lit "sk-example"))
    (scripted [Some (lit "오늘 정말 기뻐요"); Some (lit "7");
               Some (lit "정말 좋은 일이네요!");
               Some (lit "내일도 기대돼요"); Some (lit "7");
               Some (lit "내일도 좋은 하루 되세요.");
               Some (lit "안녕히 가세요.")])
    [] (fun n => DateTime 2025 3 14 12 0 (N.of_nat n)) 0 (Some ∅) [] in
  let '(r, w') :=
    main [lit "민지"; lit "오늘 정말 기뻐요!"; lit "내일도 기대돼요"; lit "bye"] w in
  r = Ok tt
  /\ (requests w').*1 =
     [AtPreprocess; AtSentiment; AtResponse;
      AtPreprocess; AtSentiment; AtResponse; AtFarewell]
  /\ (exists prompt,
        requests w' !! 5%nat = Some (AtResponse, prompt)
        /\ contains (lit "- [20250314_120000] 사용자: 오늘 정말 기뻐요!") prompt
           = true
        /\ contains (lit "  응답: 정말 좋은 일이네요!") prompt = true)
  /\ (fun d => (map_to_list d).*1) <$> logs_dir w' =
     Some [lit "20250314_120001.json"; lit "20250314_120000.json"].
Proof.
  vm_compute. split_and!; try done. eexists. split_and!; reflexivity.
Qed.

Lemma strftime_chronological_witness :
  text_lt (strftime noon) (strftime after_clocks_go_back) <->
  earlier noon after_clocks_go_back.
Proof.
  apply strftime_chronological; unfold plausible; cbn; lia.
Defined.

End MoreExamples.

(** ** Failures before and after the response *)

Section Outcomes.
Context `{Runtime}.

(** Without an API key nothing is asked and nothing is touched: each
    function that talks to the service raises on building the client. *)
Theorem missing_key_fails_first user_input username score w :
  env_api_key w = None ->
  run_pipeline user_input username w = (Raise OpenAIError, w)
  /\ generate_response score user_input username w = (Raise OpenAIError, w)
  /\ is_warning_signal user_input w = (Raise OpenAIError, w)
  /\ generate_farewell_message username w = (Raise OpenAIError, w).
Proof.
  intros Hkey. split_and!.
  - rewrite run_pipeline_run.
    unfold analyze_user_input, preprocess_input_with_openai.
    by rewrite bind_run, ask_run, Hkey.
  - unfold generate_response.
    by rewrite bind_run, get_openai_client_run, Hkey.
  - destruct (is_warning_signal_run user_input w) as [prompt ->].
    by rewrite Hkey.
  - destruct (generate_farewell_message_run username w) as [prompt ->].
    by rewrite Hkey.
Qed.


(** Two records written within one second share a file name: the second
    replaces the first, and [logs/] ends as if the first had never been
    written. *)
Theorem log_interaction_last_write_wins
    user_input1 score1 response1 username1
    user_input2 score2 response2 username2 w :
  1 <= score1 <= 7 ->
  1 <= score2 <= 7 ->
  strftime (clock w (S (clock_reads w))) = strftime (clock w (clock_reads w)) ->
  let w1 := (log_interaction user_input1 score1 response1 username1 w).2 in
  logs_dir (log_interaction user_input2 score2 response2 username2 w1).2
  = logs_dir (log_interaction user_input2 score2 response2 username2 w).2.
Proof.
  intros Hscore1 Hscore2 Hsame. cbv zeta.
  rewrite (log_interaction_run _ score1).
  destruct (emotion_mapping !! score1) as [label1|] eqn:Hlabel1.
  2:{ apply emotion_mapping_None in Hlabel1. lia. }
  cbv zeta. rewrite !log_interaction_run.
  destruct (emotion_mapping !! score2) as [label2|] eqn:Hlabel2.
  2:{ apply emotion_mapping_None in Hlabel2. lia. }
  cbv zeta. cbn [snd logs_dir set_logs_dir tick_clock clock clock_reads].
  change (default ∅ (Some ?d)) with d.
  by rewrite Hsame, insert_insert_eq.
Qed.


(** A user who gives a name before [logs/] exists: the turn reaches
    retrieval, [os.listdir] raises, no response is asked for, and the
    directory is still missing afterwards, so the next named turn fails in
    the same way. *)
Theorem named_turn_without_logs_dir user_input name w :
  is_Some (env_api_key w) ->
  (forall n prompt, is_Some (oracle w n prompt)) ->
  name <> [] ->
  logs_dir w = None ->
  exists w',
    run_pipeline user_input (Some name) w = (Raise FileNotFoundError, w')
    /\ logs_dir w' = None
    /\ (requests w').*1 = (requests w).*1 ++ [AtPreprocess; AtSentiment].
Proof.
  intros Hkey Horacle Hname Hdir.
  destruct (analyze_user_input_ok user_input w Hkey Horacle)
    as (classified & prompt1 & prompt2 & Hanalyze).
  rewrite run_pipeline_run, Hanalyze. cbv zeta.
  rewrite generate_response_no_logs_dir by done.
  eexists. split_and!; [reflexivity|done|].
  cbn [requests add_requests]. by rewrite fmap_app.
Qed.

End Outcomes.

Section OutcomesExamples.
#[local] Existing Instance ascii_runtime.

Lemma missing_key_fails_first_witness :
  let w := World None (scripted []) [] (fun _ => noon) 0 (Some ∅) [] in
  run_pipeline (lit "오늘 정말 기뻐요!") (Some (lit "민지")) w
  = (Raise OpenAIError, w)
  /\ generate_response 7 (lit "오늘 정말 기뻐요!") (Some (lit "민지")) w
     = (Raise OpenAIError, w)
  /\ is_warning_signal (lit "오늘 정말 기뻐요!") w = (Raise OpenAIError, w)
  /\ generate_farewell_message (Some (lit "민지")) w = (Raise OpenAIError, w).
Proof.
  intros w.
  apply (missing_key_fails_first (lit "오늘 정말 기뻐요!") (Some (lit "민지")) 7 w).
  reflexivity.
Defined.

Lemma log_interaction_last_write_wins_witness :
  let w := example_world [] noon (Some ∅) in
  let w1 :=
    (log_interaction (lit "잠을 못 잤어요") 6 (lit "푹 쉬세요.")
       (Some (lit "민지")) w).2 in
  logs_dir (log_interaction (lit "오늘은 괜찮아요") 3 (lit "다행이에요.")
              (Some (lit "민지")) w1).2
  = logs_dir (log_interaction (lit "오늘은 괜찮아요") 3 (lit "다행이에요.")
                (Some (lit "민지")) w).2.
Proof.
  intros w.
  apply (log_interaction_last_write_wins
           (lit "잠을 못 잤어요") 6 (lit "푹 쉬세요.") (Some (lit "민지"))
           (lit "오늘은 괜찮아요") 3 (lit "다행이에요.") (Some (lit "민지")) w).
  - lia.
  - lia.
  - reflexivity.
Defined.


Lemma named_turn_without_logs_dir_witness :
  let w := World (Some (lit "sk-example")) (fun _ _ => Some (lit " 7 "))
             [] (fun _ => noon) 0 None [] in
  exists w',
    run_pipeline (lit "오늘 정말 기뻐요!") (Some (lit "민지")) w
    = (Raise FileNotFoundError, w')
    /\ logs_dir w' = None
    /\ (requests w').*1 = (requests w).*1 ++ [AtPreprocess; AtSentiment].
Proof.
  intros w.
  apply (named_turn_without_logs_dir (lit "오늘 정말 기뻐요!") (lit "민지") w).
  - by eexists.
  - intros n prompt. by eexists.
  - done.
  - reflexivity.
Defined.

End OutcomesExamples.

(** ** Where the name goes *)

Lemma bind_congr {A B} (m1 m2 : M A) (f : A -> M B) w :
  m1 w = m2 w -> (m1 ≫= f) w = (m2 ≫= f) w.
Proof. intros Heq. by rewrite !bind_run, Heq. Qed.

Section Name.
Context `{Runtime}.

Lemma generate_response_same_context score user_input username1 username2 w :
  (load_previous_logs username1 3 w).1 = (load_previous_logs username2 3 w).1 ->
  generate_response score user_input username1 w
  = generate_response score user_input username2 w.
Proof.
  intros Hsame. unfold generate_response.
  rewrite !(bind_run get_openai_client), get_openai_client_run.
  destruct (env_api_key w); [|done].
  apply bind_congr.
  pose proof (load_previous_logs_world username1 3 w).
  pose proof (load_previous_logs_world username2 3 w).
  destruct (load_previous_logs username1 3 w),
           (load_previous_logs username2 3 w).
  cbn [fst snd] in *. congruence.
Qed.

(** The name reaches the service in a turn only through the context it
    retrieves: two names (or a name and none) with the same retrieved
    context give the same requests, prompts included, and the same
    result. *)
Theorem turn_requests_ignore_the_name user_input username1 username2 w :
  (load_previous_logs username1 3 w).1 = (load_previous_logs username2 3 w).1 ->
  (run_pipeline user_input username1 w).1
  = (run_pipeline user_input username2 w).1
  /\ requests (run_pipeline user_input username1 w).2
     = requests (run_pipeline user_input username2 w).2.
Proof.
  intros Hsame. rewrite !run_pipeline_run.
  destruct (analyze_user_input_spec user_input w) as (new1 & Hw1 & _).
  destruct (analyze_user_input user_input w) as [[classified|e] w1];
    cbn [snd] in Hw1; subst w1; [|done].
  cbv zeta.
  rewrite (generate_response_same_context _ _ username1 username2).
  2:{ rewrite !(load_previous_logs_frame _ _ (add_requests new1 w) w); done. }
  destruct (generate_response _ _ username2 _) as [[response|e] w2]; [|done].
  rewrite !log_interaction_run.
  by destruct (emotion_mapping !! default 3 classified).
Qed.

(** The farewell is different: a name that was given is written into the
    farewell prompt as it is. *)
Theorem farewell_prompt_names_the_user name w :
  is_Some (env_api_key w) ->
  name <> [] ->
  exists prompt,
    requests (generate_farewell_message (Some name) w).2
    = requests w ++ [(AtFarewell, prompt)]
    /\ contains name prompt = true.
Proof.
  intros [key Hkey] Hname. unfold generate_farewell_message.
  destruct name as [|c name]; [done|].
  rewrite ask_run, Hkey. eexists. split; [reflexivity|].
  apply contains_spec. eexists (lit "사용자 이름은 "), _.
  rewrite <-!app_assoc. reflexivity.
Qed.

Lemma strip_blank s : Forall (fun c => isspace c = true) s -> strip s = [].
Proof.
  intros Hblank. unfold strip, lstrip.
  assert (dropwhile isspace s = []) as ->; [|done].
  induction Hblank as [|c s Hc _ IH]; [done|]. cbn. by rewrite Hc.
Qed.

(** An empty name is no name: the turn, the retrieval and the farewell
    behave as for an anonymous user, and nothing is hashed. A name line of
    white space only is such a name once [main] has stripped it. *)
Theorem empty_name_is_anonymous user_input username limit w :
  truthy username = false ->
  run_pipeline user_input username w = run_pipeline user_input None w
  /\ load_previous_logs username limit w = (Ok [], w)
  /\ generate_farewell_message username w = generate_farewell_message None w
  /\ (forall line,
        Forall (fun c => isspace c = true) line ->
        truthy (Some (strip line)) = false).
Proof.
  intros Hanonymous.
  destruct username as [[|c name]|]; try done;
    (split_and!; [reflexivity..|]);
    intros line Hblank; by rewrite strip_blank.
Qed.

End Name.

Section NameExamples.
#[local] Existing Instance ascii_runtime.

Lemma turn_requests_ignore_the_name_witness :
  let w := example_world
    [Some (lit "오늘 정말 기뻐요"); Some (lit "7");
     Some (lit "정말 좋은 일이네요!")] noon (Some one_record_dir) in
  (run_pipeline (lit "오늘 정말 기뻐요!") (Some (lit "지수")) w).1
  = (run_pipeline (lit "오늘 정말 기뻐요!") None w).1
  /\ requests (run_pipeline (lit "오늘 정말 기뻐요!") (Some (lit "지수")) w).2
     = requests (run_pipeline (lit "오늘 정말 기뻐요!") None w).2.
Proof.
  intros w.
  apply (turn_requests_ignore_the_name (lit "오늘 정말 기뻐요!")
           (Some (lit "지수")) None w).
  vm_compute. reflexivity.
Defined.

Lemma farewell_prompt_names_the_user_witness :
  let w := example_world [Some (lit " 오늘도 수고 많으셨어요. ")] noon
             (Some ∅) in
  exists prompt,
    requests (generate_farewell_message (Some (lit "민지")) w).2
    = requests w ++ [(AtFarewell, prompt)]
    /\ contains (lit "민지") prompt = true.
Proof.
  intros w. apply (farewell_prompt_names_the_user (lit "민지") w).
  - by eexists.
  - done.
Defined.

Lemma empty_name_is_anonymous_witness :
  let w := example_world
    [Some (lit "오늘 정말 기뻐요"); Some (lit "7");
     Some (lit "정말 좋은 일이네요!")] noon (Some one_record_dir) in
  run_pipeline (lit "오늘 정말 기뻐요!") (Some []) w
  = run_pipeline (lit "오늘 정말 기뻐요!") None w
  /\ load_previous_logs (Some []) 3 w = (Ok [], w)
  /\ generate_farewell_message (Some []) w = generate_farewell_message None w
  /\ (forall line,
        Forall (fun c => isspace c = true) line ->
        truthy (Some (strip line)) = false).
Proof.
  intros w.
  apply (empty_name_is_anonymous (lit "오늘 정말 기뻐요!") (Some []) 3 w).
  reflexivity.
Defined.

End NameExamples.

(** ** The prompt of the response request *)

Lemma contains_refl s : contains s s = true.
Proof. apply contains_spec. exists [], []. by rewrite app_nil_r. Qed.

Lemma contains_app_l needle a b :
  contains needle a = true -> contains needle (a ++ b) = true.
Proof.
  rewrite !contains_spec. intros (pre & post & ->).
  exists pre, (post ++ b). by rewrite <-!app_assoc.
Qed.

Lemma contains_app_r needle a b :
  contains needle b = true -> contains needle (a ++ b) = true.
Proof.
  rewrite !contains_spec. intros (pre & post & ->).
  exists (a ++ pre), post. by rewrite <-!app_assoc.
Qed.

Lemma join_cons sep part parts :
  parts <> [] -> join sep (part :: parts) = part ++ sep ++ join sep parts.
Proof. by destruct parts. Qed.

Lemma contains_join sep part parts :
  part ∈ parts -> contains part (join sep parts) = true.
Proof.
  induction parts as [|part0 parts IH]; intros Hin.
  { by apply elem_of_nil in Hin. }
  destruct parts as [|part1 parts].
  { apply list_elem_of_singleton in Hin as ->. apply contains_refl. }
  rewrite join_cons by done.
  apply elem_of_cons in Hin as [->|Hin].
  - apply contains_app_l, contains_refl.
  - by apply contains_app_r, contains_app_r, IH.
Qed.

Lemma endswith_join_last sep parts part :
  endswith (join sep (parts ++ [part])) part = true.
Proof.
  unfold endswith. apply bool_decide_eq_true.
  induction parts as [|part0 parts IH]; [done|].
  cbn [app]. rewrite join_cons by by destruct parts.
  by apply suffix_app_r, suffix_app_r.
Qed.

Section Prompt.
Context `{Runtime}.

Lemma generate_response_run score user_input username w logs :
  is_Some (env_api_key w) ->
  (load_previous_logs username 3 w).1 = Ok logs ->
  exists wprompt,
    generate_response score user_input username w =
    if is_negative_emotion score then
      match oracle w (length (requests w)) wprompt with
      | None => (Raise OpenAIError, add_requests [(AtWarning, wprompt)] w)
      | Some wcontent =>
        let prompt :=
          full_prompt logs
            (instruction score (contains (lit "true") (lower (strip wcontent))))
            score user_input in
        (match oracle w (S (length (requests w))) prompt with
         | Some content => Ok (strip content)
         | None => Raise OpenAIError
         end,
         add_requests [(AtWarning, wprompt); (AtResponse, prompt)] w)
      end
    else
      let prompt := full_prompt logs (instruction score false) score user_input in
      (match oracle w (length (requests w)) prompt with
       | Some content => Ok (strip content)
       | None => Raise OpenAIError
       end, add_requests [(AtResponse, prompt)] w).
Proof.
  intros [key Hkey] Hlogs.
  destruct (is_warning_signal_run user_input w) as [wprompt Hwarning].
  exists wprompt. unfold generate_response.
  rewrite bind_run, get_openai_client_run, Hkey, bind_run.
  pose proof (load_previous_logs_world username 3 w) as Hw.
  destruct (load_previous_logs username 3 w) as [[logs'|e] w1];
    cbn [fst snd] in Hw, Hlogs; simplify_eq.
  rewrite bind_run. unfold instruction, full_prompt, context_lines.
  destruct (is_negative_emotion score) eqn:Hnegative.
  - rewrite bind_run, Hwarning, Hkey.
    destruct (oracle w (length (requests w)) wprompt) as [wcontent|]; [|done].
    destruct (contains (lit "true") (lower (strip wcontent)));
      unfold mret at 1, M_ret at 1;
      rewrite bind_run, chat_completion_run, add_requests_app;
      cbn [oracle requests add_requests app];
      rewrite length_app, Nat.add_1_r; cbv zeta;
      set (prompt := join _ _);
      by destruct (oracle w _ prompt).
  - unfold mret at 1, M_ret at 1.
    rewrite bind_run, chat_completion_run. cbv zeta.
    set (prompt := join _ _).
    by destruct (oracle w _ prompt).
Qed.


Lemma generate_response_prompt score user_input username w logs :
  is_Some (env_api_key w) ->
  (load_previous_logs username 3 w).1 = Ok logs ->
  exists new,
    (generate_response score user_input username w).2 = add_requests new w
    /\ forall prompt,
         (AtResponse, prompt) ∈ new ->
         exists warning,
           prompt = full_prompt logs (instruction score warning) score user_input
           /\ if is_negative_emotion score then
                exists wprompt wcontent,
                  new = [(AtWarning, wprompt); (AtResponse, prompt)]
                  /\ oracle w (length (requests w)) wprompt = Some wcontent
                  /\ warning = contains (lit "true") (lower (strip wcontent))
              else new = [(AtResponse, prompt)].
Proof.
  intros Hkey Hlogs.
  destruct (generate_response_run score user_input username w logs Hkey Hlogs)
    as [wprompt ->].
  destruct (is_negative_emotion score) eqn:Hnegative.
  - destruct (oracle w (length (requests w)) wprompt) as [wcontent|] eqn:Hreply.
    + cbv zeta. eexists. split; [reflexivity|]. intros prompt Hin.
      apply elem_of_cons in Hin as [[=]|Hin].
      apply list_elem_of_singleton in Hin as [= ->].
      eexists. split; [reflexivity|]. by eexists _, _.
    + eexists. split; [reflexivity|]. intros prompt Hin.
      by apply list_elem_of_singleton in Hin.
  - cbv zeta. eexists. split; [reflexivity|]. intros prompt Hin.
    apply list_elem_of_singleton in Hin as [= ->].
    by exists false.
Qed.

Lemma retrieved_context_bounded username w logs :
  (load_previous_logs username 3 w).1 = Ok logs -> (length logs <= 3)%nat.
Proof.
  intros Hlogs. destruct (truthy username) eqn:Hnamed.
  - destruct username as [[|c name]|]; try done.
    destruct (load_previous_logs_recent (c :: name) 3 w logs) as [Hlength _];
      [done|done|lia].
  - rewrite load_previous_logs_anonymous in Hlogs by done.
    injection Hlogs as <-. cbn. lia.
Qed.

(** The instruction of the response prompt follows a three-way policy: it
    asks for a crisis response with counselling-centre information exactly
    when the score is negative and the risk detector's reply held the token
    [true], for support on a negative score otherwise, and for empathy on
    any other score, for which the detector is not asked. The prompt is the
    rendered context, the instruction, the emotion line and the input. *)
Theorem response_prompt_policy score user_input username w logs :
  is_Some (env_api_key w) ->
  (load_previous_logs username 3 w).1 = Ok logs ->
  exists new,
    (generate_response score user_input username w).2 = add_requests new w
    /\ forall prompt,
         (AtResponse, prompt) ∈ new ->
         exists warning,
           prompt = full_prompt logs (instruction score warning) score user_input
           /\ (instruction score warning =
                lit "자살, 자해 등 위험 신호가 감지되었습니다. 이에 대한 적절한 응답을 생성해 주세요. "
                ++ lit "특히 상담센터 정보와 같은 도움 되는 정보를 제공해 주세요."
                <-> is_negative_emotion score = true /\ warning = true)
           /\ (instruction score warning =
                lit "사용자의 감정에 적절한 공감 메시지를 생성해 주세요."
                <-> is_negative_emotion score = false)
           /\ if is_negative_emotion score then
                exists wprompt wcontent,
                  new = [(AtWarning, wprompt); (AtResponse, prompt)]
                  /\ oracle w (length (requests w)) wprompt = Some wcontent
                  /\ warning = contains (lit "true") (lower (strip wcontent))
              else new = [(AtResponse, prompt)].
Proof.
  intros Hkey Hlogs.
  destruct (generate_response_prompt score user_input username w logs Hkey Hlogs)
    as (new & Hw & Hprompt).
  exists new. split; [done|]. intros prompt Hin.
  destruct (Hprompt prompt Hin) as (warning & -> & Hpolicy).
  exists warning. split; [done|]. split_and!; [| |done].
  all: unfold instruction.
  all: set (crisis := lit _ ++ lit _).
  all: set (support := lit "사용자가 부정적인 감정을 느끼고 있습니다. 이에 대한 적절한 응답을 생성해 주세요.").
  all: set (calm := lit "사용자의 감정에 적절한 공감 메시지를 생성해 주세요.").
  all: assert (length crisis = 81%nat) as Hcrisis by (by vm_compute).
  all: assert (length support = 46%nat) as Hsupport by (by vm_compute).
  all: assert (length calm = 29%nat) as Hcalm by (by vm_compute).
  all: clearbody crisis support calm.
  all: destruct (is_negative_emotion score), warning; split;
         try (intros [??]); try intros ?; try done; try (split; done);
         exfalso; congruence.
Qed.

(** What the service is shown with a response request: every retrieved
    turn, at most three of them, rendered with its timestamp, input and
    response, and the user's input of this turn, as it was typed, at the
    end of the prompt. *)
Theorem response_prompt_shows_context score user_input username w logs :
  is_Some (env_api_key w) ->
  (load_previous_logs username 3 w).1 = Ok logs ->
  (length logs <= 3)%nat
  /\ exists new,
       (generate_response score user_input username w).2 = add_requests new w
       /\ forall prompt,
            (AtResponse, prompt) ∈ new ->
            endswith prompt (lit "이번 사용자 입력: " ++ user_input) = true
            /\ forall ts entry,
                 (ts, entry) ∈ logs ->
                 contains
                   (lit "- [" ++ ts ++ lit "] 사용자: " ++ e_input entry
                    ++ [10%N] ++ lit "  응답: " ++ e_response entry)
                   prompt = true.
Proof.
  intros Hkey Hlogs. split; [by eapply retrieved_context_bounded|].
  destruct (generate_response_prompt score user_input username w logs Hkey Hlogs)
    as (new & Hw & Hprompt).
  exists new. split; [done|]. intros prompt Hin.
  destruct (Hprompt prompt Hin) as (warning & -> & _).
  unfold full_prompt. split.
  - change [?a; ?b; ?c] with ([a; b] ++ [c]).
    rewrite app_assoc. apply endswith_join_last.
  - intros ts entry Hentry. apply contains_join.
    apply elem_of_app. left. unfold context_lines.
    destruct logs as [|first logs]; [by apply elem_of_nil in Hentry|].
    apply list_elem_of_further, elem_of_app. left.
    apply (list_elem_of_fmap_2'  _ _ (ts, entry)); done.
Qed.

End Prompt.

Section PromptExamples.
#[local] Existing Instance ascii_runtime.

Lemma response_prompt_policy_witness :
  let w := example_world
    [Some (lit " True "); Some (lit "혼자가 아니에요.")] noon
    (Some one_record_dir) in
  let logs :=
    [(lit "20250313_090000",
      {| e_input := lit "잠을 못 잤어요"; e_response := lit "푹 쉬세요." |})] in
  let score := 6 in
  let user_input := lit "다 끝내고 싶어요" in
  exists new,
    (generate_response score user_input (Some (lit "민지")) w).2
    = add_requests new w
    /\ forall prompt,
         (AtResponse, prompt) ∈ new ->
         exists warning,
           prompt = full_prompt logs (instruction score warning) score user_input
           /\ (instruction score warning =
                lit "자살, 자해 등 위험 신호가 감지되었습니다. 이에 대한 적절한 응답을 생성해 주세요. "
                ++ lit "특히 상담센터 정보와 같은 도움 되는 정보를 제공해 주세요."
                <-> is_negative_emotion score = true /\ warning = true)
           /\ (instruction score warning =
                lit "사용자의 감정에 적절한 공감 메시지를 생성해 주세요."
                <-> is_negative_emotion score = false)
           /\ if is_negative_emotion score then
                exists wprompt wcontent,
                  new = [(AtWarning, wprompt); (AtResponse, prompt)]
                  /\ oracle w (length (requests w)) wprompt = Some wcontent
                  /\ warning = contains (lit "true") (lower (strip wcontent))
              else new = [(AtResponse, prompt)].
Proof.
  intros w logs score user_input.
  apply (response_prompt_policy score user_input (Some (lit "민지")) w logs).
  - by eexists.
  - vm_compute. reflexivity.
Defined.

Lemma response_prompt_shows_context_witness :
  let w := example_world
    [Some (lit " True "); Some (lit "혼자가 아니에요.")] noon
    (Some one_record_dir) in
  let logs :=
    [(lit "20250313_090000",
      {| e_input := lit "잠을 못 잤어요"; e_response := lit "푹 쉬세요." |})] in
  let user_input := lit "다 끝내고 싶어요" in
  (length logs <= 3)%nat
  /\ exists new,
       (generate_response 6 user_input (Some (lit "민지")) w).2
       = add_requests new w
       /\ forall prompt,
            (AtResponse, prompt) ∈ new ->
            endswith prompt (lit "이번 사용자 입력: " ++ user_input) = true
            /\ forall ts entry,
                 (ts, entry) ∈ logs ->
                 contains
                   (lit "- [" ++ ts ++ lit "] 사용자: " ++ e_input entry
                    ++ [10%N] ++ lit "  응답: " ++ e_response entry)
                   prompt = true.
Proof.
  intros w logs user_input.
  apply (response_prompt_shows_context 6 user_input (Some (lit "민지")) w logs).
  - by eexists.
  - vm_compute. reflexivity.
Defined.

End PromptExamples.

(** ** What [strip] leaves *)

Lemma last_dropwhile p s :
  dropwhile p s <> [] -> last (dropwhile p s) = last s.
Proof.
  induction s as [|c s IH]; [done|]. cbn [dropwhile].
  destruct (p c); [|done]. intros Hrest. rewrite IH by done.
  destruct s; [done|]. done.
Qed.

Section Trimmed.
Context `{Runtime}.

Lemma strip_trimmed s : trimmed (strip s).
Proof.
  unfold trimmed, strip, lstrip.
  set (t := dropwhile isspace s).
  set (d := dropwhile isspace (reverse t)).
  split.
  - destruct (reverse d) as [|c rest] eqn:Hd; [done|].
    assert (head (reverse d) = Some c) as Hhead by by rewrite Hd.
    rewrite head_reverse in Hhead.
    assert (d <> []) as Hne by (by intros Heq; rewrite Heq in Hhead).
    subst d. rewrite last_dropwhile, last_reverse in Hhead by done.
    pose proof (dropwhile_head isspace s) as Hfirst. fold t in Hfirst.
    destruct t; [done|]. by injection Hhead as ->.
  - rewrite last_reverse.
    pose proof (dropwhile_head isspace (reverse t)) as Hfirst. fold d in Hfirst.
    by destruct d.
Qed.

Lemma strip_of_trimmed s : trimmed s -> strip s = s.
Proof.
  intros [Hhead Hlast]. unfold strip, lstrip.
  assert (forall t : text,
            match t with [] => True | c :: _ => isspace c = false end ->
            dropwhile isspace t = t) as Hkeep.
  { intros [|c t] Hc; [done|]. cbn. by rewrite Hc. }
  rewrite (Hkeep s) by done. rewrite Hkeep; [apply reverse_involutive|].
  rewrite <-head_reverse in Hlast.
  by destruct (reverse s).
Qed.

(** Every text the module takes from the service is stripped before it is
    used: the response of a turn that returns and a farewell message have
    no white space at either end, and stripping them again changes
    nothing. *)
Theorem replies_are_trimmed user_input username w :
  match run_pipeline user_input username w with
  | (Ok response, _) => trimmed response /\ strip response = response
  | (Raise _, _) => True
  end
  /\ match generate_farewell_message username w with
     | (Ok farewell, _) => trimmed farewell /\ strip farewell = farewell
     | (Raise _, _) => True
     end.
Proof.
  split.
  - rewrite run_pipeline_run.
    destruct (analyze_user_input user_input w) as [[classified|e] w1]; [|done].
    cbv zeta.
    destruct (generate_response_spec (default 3 classified) user_input
                username w1) as (new & _ & _ & Hsent & _).
    destruct (generate_response _ _ _ w1) as [[response|e] w2]; [|done].
    destruct (Hsent response eq_refl) as (_ & prompt & content & _ & _ & ->).
    destruct (log_interaction _ _ _ _ w2) as [[[]|e] w3]; [|done].
    split; [apply strip_trimmed|apply strip_of_trimmed, strip_trimmed].
  - destruct (generate_farewell_message_run username w) as [prompt ->].
    destruct (env_api_key w); [|done].
    destruct (oracle w _ prompt); [|done].
    split; [apply strip_trimmed|apply strip_of_trimmed, strip_trimmed].
Qed.

End Trimmed.

(** ** Which records a retrieval returns *)




Section Newest.
Context `{Runtime}.



End Newest.

Section NewestExamples.
#[local] Existing Instance ascii_runtime.



End NewestExamples.

(** ** Records of other users *)


Section Others.
Context `{Runtime}.





End Others.

Section OthersExamples.
#[local] Existing Instance ascii_runtime.


End OthersExamples.

(** ** The session *)

Lemma clock_reads_add_stdout piece w :
  clock_reads (add_stdout piece w) = clock_reads w.
Proof. done. Qed.

Lemma clock_reads_add_requests new w :
  clock_reads (add_requests new w) = clock_reads w.
Proof. done. Qed.

Lemma requests_add_stdout piece w : requests (add_stdout piece w) = requests w.
Proof. done. Qed.

Section Session.
Context `{Runtime}.

Lemma main_loop_cons name line lines w :
  main_loop name (line :: lines) w =
  let w0 :=
    add_stdout ([10%N] ++ lit "당신의 감정을 말해 주세요 (종료하려면 '그만할게요', '안녕' 등 입력): ") w in
  if bool_decide (lower (strip line) ∈ farewell_words) then
    (farewell ← generate_farewell_message
                  (if truthy (Some name) then Some name else None);
     print ([10%N] ++ farewell)) w0
  else
    (response ← run_pipeline (strip line) (Some name);
     print ([10%N] ++ lit "챗봇: " ++ response);;
     main_loop name lines) w0.
Proof.
  cbn [main_loop]. rewrite bind_run, write_prompt_run. cbv zeta.
  by destruct (bool_decide _).
Qed.

Lemma run_pipeline_clock user_input username w response w' :
  run_pipeline user_input username w = (Ok response, w') ->
  clock_reads w' = S (clock_reads w).
Proof.
  rewrite run_pipeline_run.
  destruct (analyze_user_input_spec user_input w) as (new1 & Hw1 & _).
  destruct (analyze_user_input user_input w) as [[classified|e] w1];
    cbn [snd] in Hw1; subst w1; [|done].
  cbv zeta.
  destruct (generate_response_spec (default 3 classified) user_input username
              (add_requests new1 w)) as (new2 & Hw2 & _).
  destruct (generate_response _ _ _ _) as [[response'|e] w2];
    cbn [snd] in Hw2; subst w2; [|done].
  rewrite log_interaction_run.
  destruct (emotion_mapping !! _); [|done].
  cbv zeta. by intros [= _ <-].
Qed.

Lemma main_loop_stops name turns bye rest w :
  Forall (fun line => lower (strip line) ∉ farewell_words) turns ->
  lower (strip bye) ∈ farewell_words ->
  main_loop name (turns ++ bye :: rest) w = main_loop name (turns ++ [bye]) w.
Proof.
  intros Hturns Hbye. revert w.
  induction Hturns as [|line turns Hline _ IH]; intros w; cbn [app].
  - rewrite !main_loop_cons. by rewrite bool_decide_eq_true_2 by done.
  - rewrite !main_loop_cons. rewrite bool_decide_eq_false_2 by done.
    cbv zeta. rewrite !bind_run.
    destruct (run_pipeline _ _ _) as [[response|e] w1]; [|done].
    rewrite !bind_run, !print_run. apply IH.
Qed.

Lemma main_loop_completed name lines w :
  (main_loop name lines w).1 = Ok tt ->
  exists turns bye rest,
    lines = turns ++ bye :: rest
    /\ Forall (fun line => lower (strip line) ∉ farewell_words) turns
    /\ lower (strip bye) ∈ farewell_words
    /\ clock_reads (main_loop name lines w).2
       = (clock_reads w + length turns)%nat
    /\ exists prompt,
         last (requests (main_loop name lines w).2) = Some (AtFarewell, prompt).
Proof.
  revert w. induction lines as [|line lines IH]; intros w.
  { cbn [main_loop]. by rewrite bind_run, write_prompt_run. }
  rewrite main_loop_cons. cbv zeta.
  set (w0 := add_stdout _ w).
  assert (clock_reads w0 = clock_reads w) as Hclock0
    by apply clock_reads_add_stdout.
  clearbody w0.
  case_bool_decide as Hline.
  - rewrite bind_run.
    destruct (generate_farewell_message_run
                (if truthy (Some name) then Some name else None) w0)
      as [prompt ->].
    destruct (env_api_key w0); [|done].
    destruct (oracle w0 _ prompt); [|done].
    rewrite print_run. intros _. cbn [snd].
    exists [], line, lines.
    split; [done|]. split; [constructor|]. split; [done|]. split.
    + rewrite clock_reads_add_stdout, clock_reads_add_requests, Hclock0.
      cbn [length]. by rewrite Nat.add_0_r.
    + exists prompt. rewrite requests_add_stdout.
      cbn [requests add_requests]. by rewrite last_snoc.
  - rewrite bind_run.
    destruct (run_pipeline (strip line) (Some name) w0) as [[response|e] w1]
      eqn:Hturn; [|done].
    apply run_pipeline_clock in Hturn.
    rewrite bind_run, print_run.
    set (w2 := add_stdout _ w1).
    assert (clock_reads w2 = clock_reads w1) as Hclock2
      by apply clock_reads_add_stdout.
    clearbody w2.
    intros Hok.
    destruct (IH w2 Hok) as (turns & bye & rest & -> & Hturns & Hbye & Hclock
                             & Hlast).
    exists (line :: turns), bye, rest.
    split_and!; [done|by constructor|done| |done].
    rewrite Hclock. cbn [length]. lia.
Qed.

(** Whatever is typed after the first farewell word is never read: the
    session behaves as if the input had ended there. *)
Theorem session_ends_at_first_farewell name_line turns bye rest w :
  Forall (fun line => lower (strip line) ∉ farewell_words) turns ->
  lower (strip bye) ∈ farewell_words ->
  main (name_line :: turns ++ bye :: rest) w
  = main (name_line :: turns ++ [bye]) w.
Proof.
  intros Hturns Hbye. unfold main.
  rewrite !bind_run, !print_run, !bind_run, !write_prompt_run.
  by apply main_loop_stops.
Qed.

(** A session that ends normally has read a name line, then turns that are
    not farewell words, then a farewell word; the clock was read once for
    each of those turns, that is, one record was written per turn and none
    for the farewell, and the last request sent is the farewell one. In
    particular input that runs out before a farewell word never ends the
    session normally. *)
Theorem completed_session lines w :
  (main lines w).1 = Ok tt ->
  exists name_line turns bye rest,
    lines = name_line :: turns ++ bye :: rest
    /\ Forall (fun line => lower (strip line) ∉ farewell_words) turns
    /\ lower (strip bye) ∈ farewell_words
    /\ clock_reads (main lines w).2 = (clock_reads w + length turns)%nat
    /\ exists prompt,
         last (requests (main lines w).2) = Some (AtFarewell, prompt).
Proof.
  unfold main. rewrite bind_run, print_run, bind_run, write_prompt_run.
  destruct lines as [|name_line lines]; [done|].
  set (w0 := add_stdout _ (add_stdout _ w)).
  assert (clock_reads w0 = clock_reads w) as Hclock0
    by (subst w0; by rewrite !clock_reads_add_stdout).
  clearbody w0. intros Hok.
  destruct (main_loop_completed _ _ _ Hok)
    as (turns & bye & rest & -> & Hturns & Hbye & Hclock & Hlast).
  exists name_line, turns, bye, rest.
  split_and!; [done|done|done|congruence|done].
Qed.

End Session.

Section SessionExamples.
#[local] Existing Instance ascii_runtime.

Lemma session_ends_at_first_farewell_witness :
  let w := example_world
    [Some (lit "오늘 정말 기뻐요"); Some (lit "7");
     Some (lit "정말 좋은 일이네요!"); Some (lit "안녕히 가세요.")]
    noon (Some ∅) in
  main (lit "민지" :: [lit "오늘 정말 기뻐요!"]
          ++ lit " Bye " :: [lit "또 올게요"]) w
  = main (lit "민지" :: [lit "오늘 정말 기뻐요!"] ++ [lit " Bye "]) w.
Proof.
  intros w.
  apply (session_ends_at_first_farewell (lit "민지") [lit "오늘 정말 기뻐요!"]
           (lit " Bye ") [lit "또 올게요"] w).
  - constructor; [|constructor]. compute_done.
  - compute_done.
Defined.

Lemma completed_session_witness :
  let w := example_world
    [Some (lit "오늘 정말 기뻐요"); Some (lit "7");
     Some (lit "정말 좋은 일이네요!"); Some (lit "안녕히 가세요.")]
    noon (Some ∅) in
  let lines := [lit "민지"; lit "오늘 정말 기뻐요!"; lit " Bye "; lit "또 올게요"] in
  exists name_line turns bye rest,
    lines = name_line :: turns ++ bye :: rest
    /\ Forall (fun line => lower (strip line) ∉ farewell_words) turns
    /\ lower (strip bye) ∈ farewell_words
    /\ clock_reads (main lines w).2 = (clock_reads w + length turns)%nat
    /\ exists prompt,
         last (requests (main lines w).2) = Some (AtFarewell, prompt).
Proof.
  intros w lines. apply (completed_session lines w).
  vm_compute. reflexivity.
Defined.

End SessionExamples.

(** ** The number read from a reply *)

Lemma takewhile_run p (m post : text) :
  Forall (fun c => p c = true) m ->
  match post with [] => True | c :: _ => p c = false end ->
  takewhile p (m ++ post) = m.
Proof.
  intros Hm Hpost. induction Hm as [|c m Hc _ IH]; cbn [app].
  - destruct post as [|c post]; [done|]. simpl. by rewrite Hpost.
  - simpl. by rewrite Hc, IH.
Qed.

Section Number.
Context `{Runtime}.

Lemma int_nonneg_from acc s :
  0 <= acc ->
  0 <= foldl (fun acc c => 10 * acc + Z.of_N (default 0%N (decimal c))) acc s.
Proof.
  revert acc. induction s as [|c s IH]; intros acc Hacc; cbn [foldl]; [done|].
  apply IH. lia.
Qed.

(** [extract_integer] reads the first run of digits of a text and nothing
    else: what stands before it (a sign, words) and after it (a decimal
    part, a unit) plays no part, and the number read is never negative. *)
Theorem extract_integer_first_run pre m post :
  Forall (fun c => is_digit c = false) pre ->
  m <> [] ->
  Forall (fun c => is_digit c = true) m ->
  match post with [] => True | c :: _ => is_digit c = false end ->
  extract_integer (pre ++ m ++ post) = Some (int m) /\ 0 <= int m.
Proof.
  intros Hpre Hm Hdigits Hpost. split; [|by apply int_nonneg_from].
  unfold extract_integer.
  assert (re_search_digits (pre ++ m ++ post) = Some m) as ->; [|done].
  induction Hpre as [|c pre Hc _ IH]; cbn [app].
  - destruct Hdigits as [|c m Hc Hdigits]; [done|].
    cbn [app re_search_digits]. rewrite Hc. f_equal.
    apply (takewhile_run is_digit (c :: m)); [by constructor|done].
  - cbn [re_search_digits]. by rewrite Hc.
Qed.

End Number.

Section NumberExamples.
#[local] Existing Instance ascii_runtime.

Lemma extract_integer_first_run_witness :
  extract_integer (lit "점수: -" ++ lit "7" ++ lit ".5점") = Some (int (lit "7"))
  /\ 0 <= int (lit "7").
Proof.
  apply (extract_integer_first_run (lit "점수: -") (lit "7") (lit ".5점")).
  - by vm_compute; repeat constructor.
  - done.
  - by vm_compute; repeat constructor.
  - reflexivity.
Defined.

End NumberExamples.
